(** * The two stateful components of the portfolio site

  A shallow embedding of [src/components/Contact.tsx] (the contact form
  and its submission status) and of [src/components/ThemeProvider.tsx]
  (the light/dark theme held in React state, mirrored into
  [localStorage] and onto the class list of the document root).

  React state is passed explicitly; an event handler or an effect is a
  function on the state it reads and writes.  The browser (storage,
  media query, class list, network) is part of that state. *)

From Stdlib Require Import String Ascii List Bool ZArith.
From Stdlib Require Import Floats.SpecFloat.
From stdpp Require Import gmap strings list fin_maps.

Set Warnings "-register-all".

Local Open Scope string_scope.

(** ** The fragment of JavaScript the components rely on *)
Module JS.

(** A value produced by [response.json()].  Numbers are IEEE doubles.  An
    object lists its properties in the order of the text; when a key is
    repeated, [JSON.parse] keeps the last occurrence. *)
Inductive JSON : Type :=
| JNull
| JBool (b : bool)
| JNumber (x : spec_float)
| JString (s : string)
| JArray (items : list JSON)
| JObject (props : list (string * JSON)).

(** What can be thrown inside [handleSubmit]'s [try] block. *)
Inductive Exn : Type :=
| TypeError      (* property access on [null] *)
| FetchFailed    (* the promise of [fetch] rejects *)
| BodyNotJson.   (* the promise of [response.json()] rejects *)

Inductive Completion (A : Type) : Type :=
| Normal (a : A)
| Throw (e : Exn).
Arguments Normal {A} a.
Arguments Throw {A} e.

(** Own property of a parsed object; the last binding of [key] wins. *)
Fixpoint own_property (key : string) (props : list (string * JSON))
  : option JSON :=
  match props with
  | [] => None
  | (k, v) :: rest =>
      match own_property key rest with
      | Some later => Some later
      | None => if String.eqb k key then Some v else None
      end
  end.

(** [data.success].  [None] is [undefined]: primitives, arrays and
    objects without the key have no such property; [null] throws. *)
Definition data_success (data : JSON) : Completion (option JSON) :=
  match data with
  | JNull => Throw TypeError
  | JObject props => Normal (own_property "success" props)
  | JBool _ | JNumber _ | JString _ | JArray _ => Normal None
  end.

(** The truthiness test of [if (...)]. *)
Definition ToBoolean (v : option JSON) : bool :=
  match v with
  | None => false
  | Some JNull => false
  | Some (JBool b) => b
  | Some (JNumber (S754_zero _)) => false
  | Some (JNumber S754_nan) => false
  | Some (JNumber _) => true
  | Some (JString s) => negb (String.eqb s EmptyString)
  | Some (JArray _) => true
  | Some (JObject _) => true
  end.

(** Code that reads and writes a state [S] and may throw. *)
Definition Eff (S A : Type) : Type := S -> Completion A * S.

Definition ret {S A} (a : A) : Eff S A := fun s => (Normal a, s).

Definition throw {S A} (e : Exn) : Eff S A := fun s => (Throw e, s).

Definition bind {S A B} (m : Eff S A) (k : A -> Eff S B) : Eff S B :=
  fun s =>
    match m s with
    | (Normal a, s') => k a s'
    | (Throw e, s') => (Throw e, s')
    end.

Definition lift {S A} (c : Completion A) : Eff S A := fun s => (c, s).

(** [try { body } catch (error) { handler }]: what [body] did to the
    state before it threw stays done. *)
Definition try_catch {S A} (body : Eff S A) (handler : Exn -> Eff S A)
  : Eff S A :=
  fun s =>
    match body s with
    | (Normal a, s') => (Normal a, s')
    | (Throw e, s') => handler e s'
    end.

Definition completion {S A} (m : Eff S A) (s : S) : Completion A := fst (m s).
Definition exec {S A} (m : Eff S A) (s : S) : S := snd (m s).

Declare Scope eff_scope.
Delimit Scope eff_scope with eff.
Notation "'let*' x ':=' m 'in' k" := (bind m (fun x => k))
  (at level 10, x name, m at level 100, k at level 200) : eff_scope.
Notation "m ';>' k" := (bind m (fun _ => k))
  (at level 100, k at level 200, right associativity) : eff_scope.

End JS.

(** ** Contact.tsx *)
Module Contact.
Import JS.
Local Open Scope eff_scope.

(** [useState<'idle' | 'submitting' | 'success' | 'error'>]. *)
Inductive Status : Type := idle | submitting | success | error.

(** The JSON body of the request to the relay.  A property read from
    [formData] that is [undefined] ([None]) is left out by
    [JSON.stringify]. *)
Record Request : Type := {
  access_key : string;
  name : option string;
  email : option string;
  message : option string;
  subject : string;
  from_name : option string;
  botcheck : bool
}.

Inductive ConsoleEntry : Type :=
| Web3FormsError (data : JSON)
| FormSubmissionError (e : Exn).

(** The component's two state cells, [formData] (a JS object, keyed by
    property name) and [status], with what the component sends to the
    network and to the console. *)
Record World : Type := {
  formData : gmap string string;
  status : Status;
  outbound : list Request;
  console : list ConsoleEntry
}.

(** [{ name: '', email: '', message: '' }]. *)
Definition emptyForm : gmap string string :=
  <["name" := EmptyString]>
    (<["email" := EmptyString]> (<["message" := EmptyString]> ∅)).

(** State of the component when it is first rendered. *)
Definition initial : World :=
  {| formData := emptyForm; status := idle; outbound := []; console := [] |}.

Definition setStatus (s : Status) : Eff World unit :=
  fun w =>
    (Normal tt,
     {| formData := formData w; status := s;
        outbound := outbound w; console := console w |}).

Definition setFormData (f : gmap string string) : Eff World unit :=
  fun w =>
    (Normal tt,
     {| formData := f; status := status w;
        outbound := outbound w; console := console w |}).

Definition console_error (entry : ConsoleEntry) : Eff World unit :=
  fun w =>
    (Normal tt,
     {| formData := formData w; status := status w;
        outbound := outbound w; console := console w ++ [entry] |}).

(** A template literal prints [undefined] for a missing property. *)
Definition interpolate (v : option string) : string :=
  match v with Some s => s | None => "undefined" end.

(** The object given to [JSON.stringify]. *)
Definition submission (f : gmap string string) : Request :=
  {| access_key := "5fe16617-2e0a-4a55-8ec4-d6bcb699c086";
     name := f !! "name";
     email := f !! "email";
     message := f !! "message";
     subject := "kelvinma.com Inquiry from " ++ interpolate (f !! "name");
     from_name := f !! "name";
     botcheck := false |}.

(** [fetch('https://api.web3forms.com/submit', ...)]: the request leaves. *)
Definition fetch (body : Request) : Eff World unit :=
  fun w =>
    (Normal tt,
     {| formData := formData w; status := status w;
        outbound := outbound w ++ [body]; console := console w |}).

(** How one request to the relay ends. *)
Inductive Relay : Type :=
| Rejected               (* [fetch] rejects: no response at all *)
| NotJson                (* a response whose body is not JSON *)
| Json (data : JSON).    (* a response whose body parses to [data] *)

(** [await fetch(...)]; the response is its body, parsed where it can be. *)
Definition await_fetch (r : Relay) : Eff World (option JSON) :=
  match r with
  | Rejected => throw FetchFailed
  | NotJson => ret None
  | Json data => ret (Some data)
  end.

(** [await response.json()]. *)
Definition response_json (response : option JSON) : Eff World JSON :=
  match response with
  | Some data => ret data
  | None => throw BodyNotJson
  end.

(** [handleSubmit] up to its first [await]: [e.preventDefault()],
    [setStatus('submitting')] and the call of [fetch] with the fields
    of the render the handler belongs to. *)
Definition handleSubmit_begin : Eff World unit :=
  setStatus submitting ;>
  fun w => fetch (submission (formData w)) w.

(** [handleSubmit] from the moment the request is settled. *)
Definition handleSubmit_settle (r : Relay) : Eff World unit :=
  try_catch
    (let* response := await_fetch r in
     let* data := response_json response in
     let* ok := lift (data_success data) in
     if ToBoolean ok then
       setStatus success ;>
       setFormData emptyForm
     else
       console_error (Web3FormsError data) ;>
       setStatus error)
    (fun err =>
       console_error (FormSubmissionError err) ;>
       setStatus error).

(** A submission during which no other event is handled. *)
Definition handleSubmit (r : Relay) : Eff World unit :=
  handleSubmit_begin ;> handleSubmit_settle r.

(** [handleChange]: [{ ...formData, [e.target.name]: e.target.value }]. *)
Definition handleChange (target_name target_value : string)
  : Eff World unit :=
  fun w => setFormData (<[target_name := target_value]> (formData w)) w.

(** A sequence of change events, oldest first. *)
Fixpoint changes (events : list (string * string)) : Eff World unit :=
  match events with
  | [] => ret tt
  | (k, v) :: rest => handleChange k v ;> changes rest
  end.

(** [disabled={status === 'submitting'}] on the submit button. *)
Definition submit_disabled (w : World) : bool :=
  match status w with
  | submitting => true
  | idle | success | error => false
  end.

(** The form's [onSubmit] as the page reaches it: through the submit
    button.  A disabled button submits nothing, and neither does a form
    whose [required] inputs do not validate ([valid] is the browser's
    verdict on them). *)
Definition submit_button (valid : bool) : Eff World unit :=
  fun w =>
    if submit_disabled w then (Normal tt, w)
    else if valid then handleSubmit_begin w
    else (Normal tt, w).

(** *** Vocabulary of the properties *)

(** The parsed body is an object whose [success] property is the boolean
    [true]. *)
Definition success_true (data : JSON) : Prop :=
  exists props,
    data = JObject props /\ own_property "success" props = Some (JBool true).

(** The parsed body has no [success] property, or has the boolean
    [false] there.  A body that is not an object has no properties. *)
Definition success_false_or_absent (data : JSON) : Prop :=
  match data with
  | JObject props =>
      own_property "success" props = None
      \/ own_property "success" props = Some (JBool false)
  | JNull | JBool _ | JNumber _ | JString _ | JArray _ => True
  end.

(** A failing outcome: no response, a body that is not JSON, or a body
    that reports failure. *)
Definition failing (r : Relay) : Prop :=
  match r with
  | Rejected | NotJson => True
  | Json data => success_false_or_absent data
  end.

(** A value that counts as true in a condition: [true], a number other
    than zero and NaN, a string with at least one character, any array
    and any object. *)
Definition truthy_value (v : JSON) : Prop :=
  match v with
  | JNull => False
  | JBool b => b = true
  | JNumber x => x <> S754_nan /\ forall sign, x <> S754_zero sign
  | JString s => s <> EmptyString
  | JArray _ | JObject _ => True
  end.

(** The response is a parsed object whose [success] property is truthy. *)
Definition accepted (r : Relay) : Prop :=
  exists props v,
    r = Json (JObject props)
    /\ own_property "success" props = Some v
    /\ truthy_value v.

End Contact.

(** ** ThemeProvider.tsx *)
Module ThemeProvider.

(** Calls made on [localStorage]. *)
Inductive StorageCall : Type :=
| GetItem (key : string)
| SetItem (key value : string).

(** What the provider touches outside React.  Storage is taken to be
    available: [getItem] and [setItem] do not throw. *)
Record Browser : Type := {
  localStorage : gmap string string;
  storage_calls : list StorageCall;   (* oldest first *)
  prefers_dark : bool;
    (* [window.matchMedia('(prefers-color-scheme: dark)').matches] *)
  classList : list string             (* [document.documentElement.classList] *)
}.

(** The two state cells of the provider.  [Theme] is a type of the
    compiler only: at run time [theme] holds whatever string was stored. *)
Record Hooks : Type := {
  theme : string;
  mounted : bool
}.

Record World : Type := {
  hooks : Hooks;
  browser : Browser
}.

(** The values of [type Theme = 'light' | 'dark']. *)
Definition is_mode (v : string) : Prop := v = "light" \/ v = "dark".

Definition setTheme (v : string) (h : Hooks) : Hooks :=
  {| theme := v; mounted := mounted h |}.

Definition setMounted (v : bool) (h : Hooks) : Hooks :=
  {| theme := theme h; mounted := v |}.

(** [localStorage.getItem(key)]; [None] is [null]. *)
Definition getItem (key : string) (b : Browser) : option string * Browser :=
  (localStorage b !! key,
   {| localStorage := localStorage b;
      storage_calls := storage_calls b ++ [GetItem key];
      prefers_dark := prefers_dark b;
      classList := classList b |}).

(** [localStorage.setItem(key, value)]. *)
Definition setItem (key value : string) (b : Browser) : Browser :=
  {| localStorage := <[key := value]> (localStorage b);
     storage_calls := storage_calls b ++ [SetItem key value];
     prefers_dark := prefers_dark b;
     classList := classList b |}.

Definition with_classList (tokens : list string) (b : Browser) : Browser :=
  {| localStorage := localStorage b;
     storage_calls := storage_calls b;
     prefers_dark := prefers_dark b;
     classList := tokens |}.

(** Tab, line feed, form feed, carriage return and space. *)
Definition ascii_whitespace (c : ascii) : bool :=
  match Ascii.nat_of_ascii c with
  | 9 | 10 | 12 | 13 | 32 => true
  | _ => false
  end.

(** A [DOMTokenList] method throws on a token that is empty or contains
    ASCII whitespace. *)
Definition valid_token (token : string) : bool :=
  negb (String.eqb token EmptyString)
  && forallb (fun c => negb (ascii_whitespace c)) (list_ascii_of_string token).

(** [classList.remove(...tokens)]; [None] when it throws. *)
Definition classList_remove (tokens : list string) (l : list string)
  : option (list string) :=
  if forallb valid_token tokens
  then Some (filter (fun c => c ∉@{list string} tokens) l)
  else None.

(** [classList.add(token)]; [None] when it throws. *)
Definition classList_add (token : string) (l : list string)
  : option (list string) :=
  if valid_token token
  then Some (if bool_decide (token ∈@{list string} l) then l
             else (l ++ [token])%list)
  else None.

(** The test of [if (savedTheme)] on a [string | null]: [null] and the
    empty string fail it; any other string passes, and is then at hand. *)
Definition truthy (v : option string) : option string :=
  match v with
  | None => None
  | Some s => if String.eqb s EmptyString then None else Some s
  end.

(** The effect with dependencies [[]] ("Initial Theme Detection").  Its
    [setMounted] and [setTheme] calls are applied to [pending], the state
    of the next render. *)
Definition detect_initial_theme (pending : Hooks) (b : Browser)
  : Hooks * Browser :=
  let pending := setMounted true pending in
  let (savedTheme, b) := getItem "theme" b in
  match truthy savedTheme with
  | Some savedTheme =>
      (setTheme savedTheme pending, b)
  | None =>
      let systemPrefersDark := prefers_dark b in
      (setTheme (if systemPrefersDark then "dark" else "light") pending, b)
  end.

(** The effect with dependencies [[theme, mounted]] ("Apply Theme to
    Document"), run with the [theme] and [mounted] of the render it
    belongs to.  [None]: a [classList] call threw. *)
Definition apply_theme (rendered : Hooks) (b : Browser) : option Browser :=
  if negb (mounted rendered) then Some b
  else
    removed ← classList_remove ["light"; "dark"] (classList b);
    added ← classList_add (theme rendered) removed;
    Some (setItem "theme" (theme rendered) (with_classList added b)).

(** React's comparison of the dependency array with that of the previous
    render. *)
Definition deps_changed (prev next : Hooks) : bool :=
  negb (String.eqb (theme prev) (theme next)
        && Bool.eqb (mounted prev) (mounted next)).

(** Committing a render after the first: only an effect whose
    dependencies changed runs again. *)
Definition rerender (prev next : Hooks) (b : Browser) : option Browser :=
  if deps_changed prev next then apply_theme next b else Some b.

(** [useState<Theme>('light')] and [useState(false)]. *)
Definition first_render : Hooks := {| theme := "light"; mounted := false |}.

(** The provider from its first render until React is idle again: the
    first render with [useState] defaults, both effects in order, then
    the render caused by the state they set. *)
Definition mount (b : Browser) : option World :=
  let first := first_render in
  let (next, b1) := detect_initial_theme first b in
  b2 ← apply_theme first b1;
  b3 ← rerender first next b2;
  Some {| hooks := next; browser := b3 |}.

(** The provider is initialised once [mounted] is set. *)
Definition initialized (w : World) : Prop := mounted (hooks w) = true.

(** [prevTheme => prevTheme === 'light' ? 'dark' : 'light']. *)
Definition toggle (prevTheme : string) : string :=
  if String.eqb prevTheme "light" then "dark" else "light".

(** A call of [toggleTheme] and the render it causes. *)
Definition toggleTheme (w : World) : option World :=
  let next := setTheme (toggle (theme (hooks w))) (hooks w) in
  b ← rerender (hooks w) next (browser w);
  Some {| hooks := next; browser := b |}.

(** The browser as the exported page arrives in it: [<html lang="en">]
    has no class, and nothing has called [localStorage] yet. *)
Definition page_load (stored : gmap string string) (dark : bool) : Browser :=
  {| localStorage := stored;
     storage_calls := [];
     prefers_dark := dark;
     classList := [] |}.

(** States of a session that started in browser [b]. *)
Inductive reachable (b : Browser) : World -> Prop :=
| reach_mount w :
    mount b = Some w -> reachable b w
| reach_toggle w w' :
    reachable b w -> toggleTheme w = Some w' -> reachable b w'.

(** The value in the [theme] slot of [localStorage]. *)
Definition persisted (w : World) : option string :=
  localStorage (browser w) !! "theme".

Definition is_read (c : StorageCall) : bool :=
  match c with
  | GetItem _ => true
  | SetItem _ _ => false
  end.

(** How many times [localStorage] was read. *)
Definition reads (calls : list StorageCall) : nat :=
  length (List.filter is_read calls).

(** Contents of the [theme] slot that the provider itself can have left
    there, or that it treats as no value: nothing, the empty string, or
    one of the two modes. *)
Definition slot_ok (slot : option string) : Prop :=
  slot = None \/ slot = Some EmptyString
  \/ slot = Some "light" \/ slot = Some "dark".

(** The mode of the platform's colour scheme. *)
Definition platform_mode (b : Browser) : string :=
  if prefers_dark b then "dark" else "light".

End ThemeProvider.

(** ** Contact.tsx: what is rendered, and the page as a run of events *)
Module ContactPage.
Import JS Contact.

(** [status === s]. *)
Definition status_eqb (s t : Status) : bool :=
  match s, t with
  | idle, idle | submitting, submitting
  | success, success | error, error => true
  | _, _ => false
  end.

(** The parts of the JSX that depend on state: the [value] of the three
    controlled inputs, the submit button and the two status messages. *)
Record View : Type := {
  name_value : option string;      (* [value={formData.name}] *)
  email_value : option string;     (* [value={formData.email}] *)
  message_value : option string;   (* [value={formData.message}] *)
  button_disabled : bool;
  button_label : string;
  success_message : bool;          (* [{status === 'success' && (<p>...)}] *)
  error_message : bool             (* [{status === 'error' && (<p>...)}] *)
}.

Definition render (w : World) : View :=
  {| name_value := formData w !! "name";
     email_value := formData w !! "email";
     message_value := formData w !! "message";
     button_disabled := submit_disabled w;
     button_label :=
       if status_eqb (status w) submitting
       then "Sending..." else "Send Message";
     success_message := status_eqb (status w) success;
     error_message := status_eqb (status w) error |}.

(** The component with the number of responses its handler has dealt
    with; the requests sent beyond that number are still in flight. *)
Record Page : Type := {
  world : World;
  settled : nat
}.

Definition in_flight (p : Page) : nat :=
  length (outbound (world p)) - settled p.

(** What can happen to the page: typing in an input, a click on the
    submit button, the answer to a request in flight. *)
Inductive Event : Type :=
| Change (target_name target_value : string)
| Click (valid : bool)
| Respond (r : Relay).

Definition step (p : Page) (e : Event) : Page :=
  match e with
  | Change k v =>
      {| world := exec (handleChange k v) (world p); settled := settled p |}
  | Click valid =>
      {| world := exec (submit_button valid) (world p); settled := settled p |}
  | Respond r =>
      match in_flight p with
      | 0 => p
      | S _ =>
          {| world := exec (handleSubmit_settle r) (world p);
             settled := S (settled p) |}
      end
  end.

Definition run (events : list Event) (p : Page) : Page :=
  fold_left step events p.

(** The page as it is first rendered. *)
Definition opened : Page := {| world := initial; settled := 0 |}.

Definition is_Respond (e : Event) : bool :=
  match e with
  | Respond _ => true
  | Change _ _ | Click _ => false
  end.

(** A request whose three fields are strings, with the subject line and
    the sender name made from the name field. *)
Definition well_formed (q : Request) : Prop :=
  exists n e m,
    name q = Some n /\ email q = Some e /\ message q = Some m
    /\ subject q = "kelvinma.com Inquiry from " ++ n
    /\ from_name q = Some n
    /\ botcheck q = false.

End ContactPage.

(** ** ThemeProvider.tsx: several toggles, and a later visit *)
Module ThemeSession.
Import ThemeProvider.

(** [n] calls of [toggleTheme], one after the other. *)
Fixpoint toggles (n : nat) (w : World) : option World :=
  match n with
  | 0 => Some w
  | S k => w' ← toggleTheme w; toggles k w'
  end.

(** The page loaded again later in the same browser: what was stored is
    still there, the document is fresh, the platform may prefer
    something else. *)
Definition reload (w : World) (dark : bool) : Browser :=
  page_load (localStorage (browser w)) dark.

Definition call_key (c : StorageCall) : string :=
  match c with
  | GetItem k => k
  | SetItem k _ => k
  end.

End ThemeSession.

(** ** Navigation.tsx *)
Module Navigation.
Import ThemeProvider.

Inductive Thrown : Type :=
| Error (message : string).

(** [useTheme]: the value of the nearest [ThemeContext.Provider], or a
    throw when there is none and [useContext] gives the default
    [undefined].  The provider's value is made from its [theme]. *)
Definition useTheme (context : option Hooks) : Thrown + string :=
  match context with
  | None => inl (Error "useTheme must be used within a ThemeProvider")
  | Some value => inr (theme value)
  end.

Inductive Icon : Type := Moon | Sun.

(** The parts of the navigation bar that depend on state: the icon of
    the desktop theme button, and the label of the theme button of the
    mobile menu when that menu is rendered. *)
Record View : Type := {
  desktop_icon : Icon;
  mobile_menu : option string
}.

Definition render (context : option Hooks) (mobileMenuOpen : bool)
  : Thrown + View :=
  match useTheme context with
  | inl thrown => inl thrown
  | inr theme =>
      inr {| desktop_icon :=
               if String.eqb theme "light" then Moon else Sun;
             mobile_menu :=
               if mobileMenuOpen
               then Some (if String.eqb theme "light"
                          then "Dark Mode" else "Light Mode")
               else None |}
  end.

End Navigation.

(** ** Projects.tsx: the links of a project card *)
Module Projects.

Record Project : Type := {
  title : string;
  description : string;
  technologies : list string;
  link : option string;      (* [link?: string] *)
  github : option string     (* [github?: string] *)
}.

(** Truthiness of a [string | undefined]. *)
Definition truthy (v : option string) : bool :=
  match v with
  | None => false
  | Some s => negb (String.eqb s EmptyString)
  end.

(** [a || b]. *)
Definition or_else (a b : option string) : option string :=
  if truthy a then a else b.

Inductive LinkText : Type := ViewProject | GitHub.

Record Anchor : Type := {
  href : string;
  text : LinkText
}.

(** [{v && (<a href={v}>...</a>)}]: nothing for [undefined] and for the
    empty string. *)
Definition anchor_if (v : option string) (label : LinkText) : list Anchor :=
  match v with
  | Some s => if truthy v then [{| href := s; text := label |}] else []
  | None => []
  end.

(** [{(project.link || project.github) && (<div>...</div>)}]: the
    children of the links container, when the container is rendered. *)
Definition links (project : Project) : option (list Anchor) :=
  if truthy (or_else (link project) (github project))
  then Some (anchor_if (link project) ViewProject
             ++ anchor_if (github project) GitHub)%list
  else None.

End Projects.

(** * Properties of the contact form *)
Section ContactProperties.
Import JS Contact.
Local Open Scope eff_scope.

Lemma ToBoolean_truthy (v : JSON) :
  ToBoolean (Some v) = true <-> truthy_value v.
Proof.
  destruct v as [ | b | x | s | items | props ]; simpl.
  - split; [discriminate | tauto].
  - tauto.
  - destruct x; simpl;
      (split;
       [ intros H;
         first [ discriminate H
               | split; [discriminate | intros sg; discriminate] ]
       | intros [Hnan Hzero]; try reflexivity; exfalso;
         first [ apply Hnan; reflexivity | eapply Hzero; reflexivity ] ]).
  - rewrite negb_true_iff, String.eqb_neq. tauto.
  - tauto.
  - tauto.
Qed.

(** The three ways [handleSubmit] can leave its [try] block. *)
Lemma settle_truthy (data : JSON) (v : option JSON) (w : World) :
  data_success data = Normal v -> ToBoolean v = true ->
  handleSubmit_settle (Json data) w =
    (Normal tt,
     {| formData := emptyForm; status := success;
        outbound := outbound w; console := console w |}).
Proof.
  intros Hd Hv. unfold handleSubmit_settle, try_catch, bind, lift.
  simpl. rewrite Hd, Hv. reflexivity.
Qed.

Lemma settle_falsy (data : JSON) (v : option JSON) (w : World) :
  data_success data = Normal v -> ToBoolean v = false ->
  handleSubmit_settle (Json data) w =
    (Normal tt,
     {| formData := formData w; status := error;
        outbound := outbound w;
        console := console w ++ [Web3FormsError data] |}).
Proof.
  intros Hd Hv. unfold handleSubmit_settle, try_catch, bind, lift.
  simpl. rewrite Hd, Hv. reflexivity.
Qed.

Lemma settle_caught (r : Relay) (e : Exn) (w : World) :
  r = Rejected /\ e = FetchFailed
  \/ r = NotJson /\ e = BodyNotJson
  \/ r = Json JNull /\ e = TypeError ->
  handleSubmit_settle r w =
    (Normal tt,
     {| formData := formData w; status := error;
        outbound := outbound w;
        console := console w ++ [FormSubmissionError e] |}).
Proof.
  intros [[-> ->] | [[-> ->] | [-> ->]]]; reflexivity.
Qed.

Lemma begin_eq (w : World) :
  handleSubmit_begin w =
    (Normal tt,
     {| formData := formData w; status := submitting;
        outbound := (outbound w ++ [submission (formData w)])%list;
        console := console w |}).
Proof. reflexivity. Qed.

Lemma changes_returns (events : list (string * string)) (w : World) :
  completion (changes events) w = Normal tt.
Proof.
  revert w. induction events as [ | [k v] rest IH ]; intros w.
  - reflexivity.
  - unfold completion in *. simpl. unfold bind. simpl. apply IH.
Qed.

Lemma changes_frame (events : list (string * string)) (w : World) :
  status (exec (changes events) w) = status w
  /\ outbound (exec (changes events) w) = outbound w
  /\ console (exec (changes events) w) = console w.
Proof.
  revert w. induction events as [ | [k v] rest IH ]; intros w.
  - repeat split.
  - unfold exec in *. simpl. unfold bind. simpl.
    match goal with
    | |- context [ changes rest ?x ] => destruct (IH x) as (Hs & Ho & Hc)
    end.
    rewrite Hs, Ho, Hc. repeat split.
Qed.

(** Running two pieces of code one after the other. *)
Lemma exec_seq {A} (m : Eff World unit) (k : Eff World A) (w : World) :
  completion m w = Normal tt ->
  exec (m ;> k) w = exec k (exec m w)
  /\ completion (m ;> k) w = completion k (exec m w).
Proof.
  unfold completion, exec, bind. destruct (m w) as [c w']. simpl.
  intros ->. split; reflexivity.
Qed.

Lemma begin_returns (w : World) : completion handleSubmit_begin w = Normal tt.
Proof. reflexivity. Qed.

(** Whatever the relay does, the handler ends normally, with status
    [success] or [error], and the fields either reset or untouched. *)
Lemma settle_cases (r : Relay) (w : World) :
  completion (handleSubmit_settle r) w = Normal tt
  /\ outbound (exec (handleSubmit_settle r) w) = outbound w
  /\ (accepted r
      /\ status (exec (handleSubmit_settle r) w) = success
      /\ formData (exec (handleSubmit_settle r) w) = emptyForm
      \/ ~ accepted r
      /\ status (exec (handleSubmit_settle r) w) = error
      /\ formData (exec (handleSubmit_settle r) w) = formData w).
Proof.
  unfold completion, exec.
  destruct r as [ | | data ].
  - rewrite (settle_caught Rejected FetchFailed) by tauto. simpl.
    repeat split. right. repeat split.
    intros (props & v & H & _). discriminate.
  - rewrite (settle_caught NotJson BodyNotJson) by tauto. simpl.
    repeat split. right. repeat split.
    intros (props & v & H & _). discriminate.
  - destruct (data_success data) as [v | e] eqn:Hd.
    + destruct (ToBoolean v) eqn:Hv.
      * rewrite (settle_truthy data v) by assumption. simpl.
        repeat split. left. repeat split.
        destruct data; simpl in Hd; try (injection Hd as <-; discriminate);
          try discriminate.
        injection Hd as <-.
        destruct (own_property "success" props) as [x | ] eqn:Hp;
          [ | discriminate ].
        exists props, x. repeat split; try assumption.
        apply ToBoolean_truthy. assumption.
      * rewrite (settle_falsy data v) by assumption. simpl.
        repeat split. right. repeat split.
        intros (props & x & Hr & Hp & Ht). injection Hr as ->.
        simpl in Hd. injection Hd as <-. rewrite Hp in Hv.
        apply ToBoolean_truthy in Ht. congruence.
    + destruct data; simpl in Hd; try discriminate.
      injection Hd as <-.
      rewrite (settle_caught (Json JNull) TypeError) by tauto. simpl.
      repeat split. right. repeat split.
      intros (props & v & H & _). discriminate.
Qed.

Lemma success_true_accepted (data : JSON) :
  success_true data -> accepted (Json data).
Proof.
  intros (props & -> & Hp). exists props, (JBool true).
  repeat split; assumption.
Qed.

Lemma failing_not_accepted (r : Relay) : failing r -> ~ accepted r.
Proof.
  intros Hf (props & v & -> & Hp & Ht). simpl in Hf.
  destruct Hf as [Hf | Hf]; rewrite Hp in Hf; [discriminate | ].
  injection Hf as ->. simpl in Ht. discriminate.
Qed.

(** One submission from start to end. *)
Lemma handleSubmit_cases (r : Relay) (w : World) :
  completion (handleSubmit r) w = Normal tt
  /\ outbound (exec (handleSubmit r) w)
     = (outbound w ++ [submission (formData w)])%list
  /\ (accepted r
      /\ status (exec (handleSubmit r) w) = success
      /\ formData (exec (handleSubmit r) w) = emptyForm
      \/ ~ accepted r
      /\ status (exec (handleSubmit r) w) = error
      /\ formData (exec (handleSubmit r) w) = formData w).
Proof.
  unfold handleSubmit.
  destruct (exec_seq handleSubmit_begin (handleSubmit_settle r) w
              (begin_returns w)) as [He Hc].
  rewrite He, Hc.
  destruct (settle_cases r (exec handleSubmit_begin w)) as (Hn & Ho & Hs).
  split; [exact Hn | ]. split; [rewrite Ho; reflexivity | ].
  exact Hs.
Qed.

(** Edits that arrive while the request is in flight do not change how a
    successful submission ends. *)
Lemma success_with_edits_in_flight
  (during : list (string * string)) (r : Relay) (w : World) :
  accepted r ->
  let w' := exec (handleSubmit_begin ;> changes during ;>
                  handleSubmit_settle r) w in
  status w' = success /\ formData w' = emptyForm.
Proof.
  intros Ha w'. subst w'.
  destruct (exec_seq handleSubmit_begin
              (changes during ;> handleSubmit_settle r) w
              (begin_returns w)) as [-> _].
  destruct (exec_seq (changes during) (handleSubmit_settle r)
              (exec handleSubmit_begin w)
              (changes_returns during _)) as [-> _].
  destruct (settle_cases r (exec (changes during) (exec handleSubmit_begin w)))
    as (_ & _ & [(_ & Hs & Hf) | (Hn & _)]); [tauto | contradiction].
Qed.

(** C1. Whatever fields a sequence of edits has produced, a submission
    whose response parses to an object with [success: true] ends with
    status [success] and with the fields reset to
    [{name: '', email: '', message: ''}]. *)
Theorem C1_success_response_resets_fields
  (edits : list (string * string)) (data : JSON) :
  success_true data ->
  let w := exec (changes edits) initial in
  status (exec (handleSubmit (Json data)) w) = success
  /\ formData (exec (handleSubmit (Json data)) w) = emptyForm.
Proof.
  intros Hd w.
  destruct (handleSubmit_cases (Json data) w)
    as (_ & _ & [(_ & Hs & Hf) | (Hn & _)]).
  - split; assumption.
  - exfalso. apply Hn. apply success_true_accepted. exact Hd.
Qed.

Lemma C1_witness :
  let edits := [("name", "Ada"); ("email", "ada@example.com");
                ("message", "Hello")] in
  let data := JObject [("success", JBool true)] in
  success_true data
  /\ status (exec (handleSubmit (Json data)) (exec (changes edits) initial))
     = success
  /\ formData (exec (handleSubmit (Json data)) (exec (changes edits) initial))
     = emptyForm.
Proof.
  intros edits data.
  assert (Hd : success_true data) by (eexists; split; reflexivity).
  split; [exact Hd | ].
  exact (C1_success_response_resets_fields edits data Hd).
Defined.

(** C2. For every state of the form and every failing outcome (the
    relay reports failure, the body is not JSON, or the request itself
    fails), the submission ends with status [error], leaves the fields as
    they were before it, and ends normally: nothing is thrown to the
    caller of the handler. *)
Theorem C2_failure_keeps_fields (r : Relay) (w : World) :
  failing r ->
  status (exec (handleSubmit r) w) = error
  /\ formData (exec (handleSubmit r) w) = formData w
  /\ completion (handleSubmit r) w = Normal tt.
Proof.
  intros Hf.
  destruct (handleSubmit_cases r w)
    as (Hn & _ & [(Ha & _) | (_ & Hs & Hd)]).
  - exfalso. exact (failing_not_accepted r Hf Ha).
  - repeat split; assumption.
Qed.

Lemma C2_witness :
  let w := exec (changes [("name", "Ada"); ("message", "Hello")]) initial in
  let r := Json (JObject [("success", JBool false)]) in
  failing r
  /\ status (exec (handleSubmit r) w) = error
  /\ formData (exec (handleSubmit r) w) = formData w
  /\ completion (handleSubmit r) w = Normal tt.
Proof.
  intros w r.
  assert (Hf : failing r) by (right; reflexivity).
  split; [exact Hf | ].
  exact (C2_failure_keeps_fields r w Hf).
Defined.

(** C3, as stated, fails: the handler has no guard of its own.  Called
    while a request is in flight, it sends a second request. *)
Lemma C3_handler_resubmits :
  let w := exec handleSubmit_begin initial in
  status w = submitting
  /\ exec handleSubmit_begin w <> w
  /\ outbound (exec handleSubmit_begin w)
     = [submission emptyForm; submission emptyForm].
Proof.
  intros w. split; [reflexivity | ]. split; [ | reflexivity ].
  intros H. apply (f_equal (fun x => length (outbound x))) in H.
  discriminate H.
Qed.

(** C3, amended. While status is [submitting] the submit button is
    disabled, so a submission made through it is ignored: no state
    changes and no request leaves.  The handler itself, called with a
    request in flight, keeps status [submitting] and the fields, and
    sends one more request. *)
Theorem C3_button_ignored_while_submitting (valid : bool) (w : World) :
  status w = submitting ->
  submit_button valid w = (Normal tt, w)
  /\ status (exec handleSubmit_begin w) = submitting
  /\ formData (exec handleSubmit_begin w) = formData w
  /\ outbound (exec handleSubmit_begin w)
     = (outbound w ++ [submission (formData w)])%list.
Proof.
  intros Hs. split.
  - unfold submit_button, submit_disabled. rewrite Hs. reflexivity.
  - repeat split.
Qed.

Lemma C3_witness :
  let w := exec handleSubmit_begin initial in
  status w = submitting
  /\ submit_button true w = (Normal tt, w)
  /\ status (exec handleSubmit_begin w) = submitting
  /\ formData (exec handleSubmit_begin w) = formData w
  /\ outbound (exec handleSubmit_begin w)
     = (outbound w ++ [submission (formData w)])%list.
Proof.
  intros w. split; [reflexivity | ].
  exact (C3_button_ignored_while_submitting true w eq_refl).
Defined.

(** C4, as stated, fails: a body whose [success] property is the string
    ["false"] has no boolean [true] there, and is taken as success. *)
Lemma C4_string_success_accepted :
  let data := JObject [("success", JString "false")] in
  ~ success_true data
  /\ status (exec (handleSubmit (Json data)) initial) = success.
Proof.
  intros data. split; [ | reflexivity ].
  intros (props & Hd & Hp). injection Hd as <-. discriminate Hp.
Qed.

(** C4, amended. A submission ends with status [success] exactly when
    the response parses to an object whose [success] property is truthy
    ([true], a number other than zero and NaN, a non-empty string, an
    array or an object); in every other case (another body shape, no
    [success] property, a falsy one, no parsable response) it ends with
    status [error]. *)
Theorem C4_success_iff_truthy (r : Relay) (w : World) :
  (accepted r <-> status (exec (handleSubmit r) w) = success)
  /\ (~ accepted r <-> status (exec (handleSubmit r) w) = error).
Proof.
  destruct (handleSubmit_cases r w)
    as (_ & _ & [(Ha & Hs & _) | (Hn & Hs & _)]); rewrite Hs.
  - split; split; try tauto; try discriminate.
  - split; split; try tauto; try discriminate.
Qed.

(** C10. A change event sets the named field to the new value and
    nothing else: every other field, the status, the requests sent and
    the console stay as they were.  So editing after a submission that
    ended in [success] or [error] leaves that status in place, however
    many edits follow. *)
Theorem C10_handleChange_frame (k v : string) (w : World) :
  let w' := exec (handleChange k v) w in
  formData w' !! k = Some v
  /\ (forall k', k' <> k -> formData w' !! k' = formData w !! k')
  /\ status w' = status w
  /\ outbound w' = outbound w
  /\ console w' = console w
  /\ completion (handleChange k v) w = Normal tt
  /\ (forall events, status (exec (changes events) w) = status w).
Proof.
  intros w'. subst w'. unfold exec, handleChange, setFormData. simpl.
  split; [apply lookup_insert_eq | ].
  split; [intros k' Hk; apply lookup_insert_ne; congruence | ].
  repeat split.
  intros events. apply changes_frame.
Qed.

Lemma C10_witness :
  let w := exec (handleSubmit Rejected)
                (exec (handleChange "email" "ada@example.com") initial) in
  let w' := exec (handleChange "name" "Ada") w in
  status w = error
  /\ status w' = error
  /\ formData w' !! "name" = Some "Ada"
  /\ formData w' !! "email" = Some "ada@example.com".
Proof.
  intros w w'. subst w'.
  destruct (C10_handleChange_frame "name" "Ada" w)
    as (Hk & Hother & Hs & _).
  split; [reflexivity | ].
  split; [exact Hs | ].
  split; [exact Hk | ].
  rewrite (Hother "email"); [reflexivity | discriminate].
Defined.

End ContactProperties.

(** * Properties of the theme provider *)
Section ThemeProperties.
Import ThemeProvider.

Lemma toggle_is_mode (v : string) : is_mode (toggle v).
Proof. unfold toggle, is_mode. destruct (String.eqb v "light"); tauto. Qed.

Lemma toggle_changes (v : string) : String.eqb v (toggle v) = false.
Proof.
  unfold toggle. destruct (String.eqb v "light") eqn:E.
  - apply String.eqb_eq in E. subst v. reflexivity.
  - exact E.
Qed.

Lemma toggle_involutive (v : string) : is_mode v -> toggle (toggle v) = v.
Proof. intros [-> | ->]; reflexivity. Qed.

Lemma is_mode_valid_token (v : string) : is_mode v -> valid_token v = true.
Proof. intros [-> | ->]; reflexivity. Qed.

Lemma is_mode_nonempty (v : string) :
  is_mode v -> String.eqb v EmptyString = false.
Proof. intros [-> | ->]; reflexivity. Qed.

(** What the second effect does once the provider is mounted. *)
Lemma apply_theme_mounted (h : Hooks) (b b' : Browser) :
  mounted h = true ->
  apply_theme h b = Some b' ->
  valid_token (theme h) = true
  /\ localStorage b' = <["theme" := theme h]> (localStorage b)
  /\ storage_calls b' = (storage_calls b ++ [SetItem "theme" (theme h)])%list
  /\ prefers_dark b' = prefers_dark b
  /\ theme h ∈ classList b'
  /\ (forall m, is_mode m -> m ∈ classList b' -> m = theme h).
Proof.
  intros Hm. unfold apply_theme, classList_remove, classList_add.
  rewrite Hm. simpl.
  destruct (valid_token (theme h)) eqn:Hv; simpl; [ | discriminate ].
  intros H. injection H as <-. simpl.
  repeat split.
  - case_bool_decide as Hin; [exact Hin | ].
    apply elem_of_app. right. apply list_elem_of_singleton. reflexivity.
  - intros m Hmode Hin.
    assert (Hkept : m ∈ filter (fun c => c ∉@{list string} ["light"; "dark"])
                              (classList b) -> False).
    { intros Hf. apply list_elem_of_filter in Hf. destruct Hf as [Hnot _].
      apply Hnot. destruct Hmode as [-> | ->].
      - apply elem_of_cons. left. reflexivity.
      - apply elem_of_cons. right. apply elem_of_cons. left. reflexivity. }
    case_bool_decide as Hdec.
    + exfalso. apply Hkept. exact Hin.
    + apply elem_of_app in Hin. destruct Hin as [Hin | Hin].
      * exfalso. apply Hkept. exact Hin.
      * apply list_elem_of_singleton in Hin. exact Hin.
Qed.

Lemma apply_theme_total (h : Hooks) (b : Browser) :
  valid_token (theme h) = true -> exists b', apply_theme h b = Some b'.
Proof.
  intros Hv. unfold apply_theme, classList_remove, classList_add.
  destruct (negb (mounted h)); [eexists; reflexivity | ].
  simpl. rewrite Hv. simpl. eexists. reflexivity.
Qed.

(** The theme the first effect asks for. *)
Lemma detect_initial_theme_eq (h : Hooks) (b : Browser) :
  detect_initial_theme h b =
    ({| theme := match localStorage b !! "theme" with
                 | Some v =>
                     if String.eqb v EmptyString then platform_mode b else v
                 | None => platform_mode b
                 end;
        mounted := true |},
     snd (getItem "theme" b)).
Proof.
  unfold detect_initial_theme, getItem, truthy, platform_mode. simpl.
  destruct (localStorage b !! "theme") as [v | ]; simpl; [ | reflexivity ].
  destruct (String.eqb v EmptyString); reflexivity.
Qed.

(** Mounting: the state it ends in, when it ends. *)
Lemma mount_inv (b : Browser) (w : World) :
  mount b = Some w ->
  hooks w = fst (detect_initial_theme first_render b)
  /\ apply_theme (hooks w) (snd (getItem "theme" b)) = Some (browser w).
Proof.
  unfold mount. rewrite detect_initial_theme_eq. simpl.
  unfold rerender, deps_changed. simpl. rewrite andb_false_r. simpl.
  destruct (apply_theme _ _) as [b3 | ] eqn:Ha; simpl; [ | discriminate ].
  intros H. injection H as <-. simpl. split; [reflexivity | exact Ha].
Qed.

Lemma mount_total (b : Browser) :
  valid_token (theme (fst (detect_initial_theme first_render b))) = true ->
  exists w, mount b = Some w.
Proof.
  intros Hv. unfold mount. rewrite detect_initial_theme_eq in *. simpl in *.
  unfold rerender, deps_changed. simpl. rewrite andb_false_r. simpl.
  match goal with
  | |- context [ apply_theme ?h ?x ] =>
      destruct (apply_theme_total h x Hv) as [b3 ->]
  end.
  simpl. eexists. reflexivity.
Qed.

Lemma mount_initialized (b : Browser) (w : World) :
  mount b = Some w -> initialized w.
Proof.
  intros H. apply mount_inv in H. destruct H as [Hh _].
  unfold initialized. rewrite Hh, detect_initial_theme_eq. reflexivity.
Qed.

(** Toggling in an initialised provider. *)
Lemma toggleTheme_inv (w w' : World) :
  initialized w ->
  toggleTheme w = Some w' ->
  hooks w' = {| theme := toggle (theme (hooks w)); mounted := true |}
  /\ apply_theme (hooks w') (browser w) = Some (browser w').
Proof.
  unfold initialized, toggleTheme, rerender, deps_changed, setTheme.
  intros Hm. simpl. rewrite toggle_changes. simpl.
  destruct (apply_theme _ _) as [b' | ] eqn:Ha; simpl; [ | discriminate ].
  intros H. injection H as <-. simpl. rewrite Hm in *.
  split; [reflexivity | exact Ha].
Qed.

Lemma toggleTheme_total (w : World) : exists w', toggleTheme w = Some w'.
Proof.
  unfold toggleTheme, rerender, deps_changed, setTheme. simpl.
  rewrite toggle_changes. simpl.
  match goal with
  | |- context [ apply_theme ?h ?x ] =>
      destruct (apply_theme_total h x) as [b' ->]
  end.
  - simpl. apply is_mode_valid_token, toggle_is_mode.
  - simpl. eexists. reflexivity.
Qed.

Lemma toggleTheme_initialized (w w' : World) :
  initialized w -> toggleTheme w = Some w' -> initialized w'.
Proof.
  intros Hi H. destruct (toggleTheme_inv w w' Hi H) as [Hh _].
  unfold initialized. rewrite Hh. reflexivity.
Qed.

Lemma reachable_initialized (b : Browser) (w : World) :
  reachable b w -> initialized w.
Proof.
  induction 1 as [w Hm | w w' _ IH Ht].
  - exact (mount_initialized b w Hm).
  - exact (toggleTheme_initialized w w' IH Ht).
Qed.

(** In every state of a session the second effect was the last thing to
    run, with the current theme. *)
Lemma reachable_applied (b : Browser) (w : World) :
  reachable b w ->
  exists b0, apply_theme (hooks w) b0 = Some (browser w).
Proof.
  intros Hr. destruct Hr as [w Hm | w w' Hr Ht].
  - apply mount_inv in Hm. destruct Hm as [_ Ha]. eexists. exact Ha.
  - destruct (toggleTheme_inv w w' (reachable_initialized b w Hr) Ht)
      as [_ Ha].
    eexists. exact Ha.
Qed.

(** The first effect reads the slot once; the second writes it once. *)
Lemma mount_calls (b : Browser) (w : World) :
  mount b = Some w ->
  storage_calls (browser w)
  = (storage_calls b
     ++ [GetItem "theme"; SetItem "theme" (theme (hooks w))])%list.
Proof.
  intros Hm. pose proof (mount_initialized b w Hm) as Hi.
  apply mount_inv in Hm. destruct Hm as [_ Ha].
  apply (apply_theme_mounted _ _ _ Hi) in Ha.
  destruct Ha as (_ & _ & -> & _). simpl.
  rewrite <- app_assoc. reflexivity.
Qed.

Lemma toggleTheme_calls (w w' : World) :
  initialized w ->
  toggleTheme w = Some w' ->
  storage_calls (browser w')
  = (storage_calls (browser w) ++ [SetItem "theme" (theme (hooks w'))])%list.
Proof.
  intros Hi Ht.
  pose proof (toggleTheme_initialized w w' Hi Ht) as Hi'.
  destruct (toggleTheme_inv w w' Hi Ht) as [_ Ha].
  apply (apply_theme_mounted _ _ _ Hi') in Ha.
  destruct Ha as (_ & _ & -> & _). reflexivity.
Qed.

Lemma reads_app (l1 l2 : list StorageCall) :
  reads (l1 ++ l2) = reads l1 + reads l2.
Proof. unfold reads. rewrite List.filter_app, length_app. reflexivity. Qed.

Lemma reachable_reads (b : Browser) (w : World) :
  reachable b w ->
  reads (storage_calls (browser w)) = S (reads (storage_calls b)).
Proof.
  induction 1 as [w Hm | w w' Hr IH Ht].
  - rewrite (mount_calls b w Hm), reads_app. unfold reads. simpl. lia.
  - rewrite (toggleTheme_calls w w' (reachable_initialized b w Hr) Ht).
    rewrite reads_app, IH. unfold reads. simpl. lia.
Qed.

(** C5. Initialisation chooses the mode by precedence: a persisted mode
    wins whatever the platform prefers; with nothing persisted the mode
    is dark exactly when the platform prefers dark, and light when no
    source says otherwise. *)
Theorem C5_initial_mode_precedence (b : Browser) :
  (forall v, localStorage b !! "theme" = Some v -> is_mode v ->
     exists w, mount b = Some w /\ theme (hooks w) = v)
  /\ (localStorage b !! "theme" = None ->
      exists w, mount b = Some w
        /\ (theme (hooks w) = "dark" <-> prefers_dark b = true)
        /\ (prefers_dark b = false -> theme (hooks w) = "light")).
Proof.
  split.
  - intros v Hs Hv.
    assert (Ht : theme (fst (detect_initial_theme first_render b)) = v).
    { rewrite detect_initial_theme_eq. simpl. rewrite Hs.
      rewrite (is_mode_nonempty v Hv). reflexivity. }
    destruct (mount_total b) as [w Hw].
    { rewrite Ht. apply is_mode_valid_token. exact Hv. }
    exists w. split; [exact Hw | ].
    apply mount_inv in Hw. destruct Hw as [-> _]. exact Ht.
  - intros Hs.
    assert (Ht : theme (fst (detect_initial_theme first_render b))
                 = platform_mode b).
    { rewrite detect_initial_theme_eq. simpl. rewrite Hs. reflexivity. }
    destruct (mount_total b) as [w Hw].
    { rewrite Ht. unfold platform_mode.
      destruct (prefers_dark b); reflexivity. }
    exists w. split; [exact Hw | ].
    apply mount_inv in Hw. destruct Hw as [-> _]. rewrite Ht.
    unfold platform_mode. destruct (prefers_dark b).
    + split; [tauto | discriminate].
    + split; [split; discriminate | reflexivity].
Qed.

Lemma C5_witness :
  let b := page_load (<["theme" := "dark"]> ∅) false in
  localStorage b !! "theme" = Some "dark"
  /\ is_mode "dark"
  /\ exists w, mount b = Some w /\ theme (hooks w) = "dark".
Proof.
  intros b.
  assert (Hs : localStorage b !! "theme" = Some "dark") by reflexivity.
  assert (Hv : is_mode "dark") by (right; reflexivity).
  split; [exact Hs | ]. split; [exact Hv | ].
  exact (proj1 (C5_initial_mode_precedence b) "dark" Hs Hv).
Defined.

(** C6, as stated, fails: with nothing persisted and a platform that
    prefers dark, the slot is already written, with ["dark"], when
    initialisation ends; the first toggle then writes ["light"]. *)
Lemma C6_first_write_at_initialisation :
  exists w0 w1,
    mount (page_load ∅ true) = Some w0
    /\ storage_calls (browser w0) = [GetItem "theme"; SetItem "theme" "dark"]
    /\ persisted w0 = Some "dark"
    /\ toggleTheme w0 = Some w1
    /\ storage_calls (browser w1)
       = [GetItem "theme"; SetItem "theme" "dark"; SetItem "theme" "light"].
Proof.
  eexists. eexists.
  split; [reflexivity | ]. split; [reflexivity | ].
  split; [reflexivity | ]. split; reflexivity.
Qed.

(** C6, amended. The slot is read exactly once, at initialisation, and
    written once when initialisation ends (with the initial mode) and
    once on every toggle (with the new mode).  In particular, with
    nothing persisted and a platform that prefers dark, the first write
    is ["dark"] at the end of initialisation and the first toggle writes
    ["light"]. *)
Theorem C6_slot_reads_and_writes (b : Browser) :
  (forall w, mount b = Some w ->
     storage_calls (browser w)
     = (storage_calls b
        ++ [GetItem "theme"; SetItem "theme" (theme (hooks w))])%list)
  /\ (forall w, reachable b w ->
        exists w', toggleTheme w = Some w'
          /\ theme (hooks w') = toggle (theme (hooks w))
          /\ storage_calls (browser w')
             = (storage_calls (browser w)
                ++ [SetItem "theme" (theme (hooks w'))])%list)
  /\ (forall w, reachable b w ->
        reads (storage_calls (browser w)) = S (reads (storage_calls b)))
  /\ (localStorage b !! "theme" = None -> prefers_dark b = true ->
      exists w0 w1,
        mount b = Some w0
        /\ storage_calls (browser w0)
           = (storage_calls b
              ++ [GetItem "theme"; SetItem "theme" "dark"])%list
        /\ toggleTheme w0 = Some w1
        /\ storage_calls (browser w1)
           = (storage_calls b
              ++ [GetItem "theme"; SetItem "theme" "dark";
                  SetItem "theme" "light"])%list).
Proof.
  split; [exact (mount_calls b) | ].
  split.
  { intros w Hr. destruct (toggleTheme_total w) as [w' Ht].
    pose proof (reachable_initialized b w Hr) as Hi.
    exists w'. split; [exact Ht | ]. split.
    - destruct (toggleTheme_inv w w' Hi Ht) as [-> _]. reflexivity.
    - exact (toggleTheme_calls w w' Hi Ht). }
  split; [exact (reachable_reads b) | ].
  intros Hs Hd.
  assert (Ht : theme (fst (detect_initial_theme first_render b))
               = "dark").
  { rewrite detect_initial_theme_eq. simpl. rewrite Hs.
    unfold platform_mode. rewrite Hd. reflexivity. }
  destruct (mount_total b) as [w0 Hm]; [rewrite Ht; reflexivity | ].
  destruct (toggleTheme_total w0) as [w1 Hw1].
  pose proof (mount_initialized b w0 Hm) as Hi.
  assert (H0 : theme (hooks w0) = "dark").
  { pose proof (mount_inv b w0 Hm) as [-> _]. exact Ht. }
  assert (H1 : theme (hooks w1) = "light").
  { destruct (toggleTheme_inv w0 w1 Hi Hw1) as [-> _]. simpl.
    rewrite H0. reflexivity. }
  exists w0, w1.
  split; [exact Hm | ].
  split; [rewrite (mount_calls b w0 Hm), H0; reflexivity | ].
  split; [exact Hw1 | ].
  rewrite (toggleTheme_calls w0 w1 Hi Hw1), (mount_calls b w0 Hm), H0, H1.
  rewrite <- app_assoc. reflexivity.
Qed.

Lemma C6_witness :
  let b := page_load ∅ true in
  localStorage b !! "theme" = None
  /\ prefers_dark b = true
  /\ exists w0 w1,
       mount b = Some w0
       /\ storage_calls (browser w0)
          = [GetItem "theme"; SetItem "theme" "dark"]
       /\ toggleTheme w0 = Some w1
       /\ storage_calls (browser w1)
          = [GetItem "theme"; SetItem "theme" "dark"; SetItem "theme" "light"].
Proof.
  intros b. split; [reflexivity | ]. split; [reflexivity | ].
  exact (proj2 (proj2 (proj2 (C6_slot_reads_and_writes b))) eq_refl eq_refl).
Defined.

(** C7, as stated, fails: initialised with the slot holding ["blue"],
    the theme is ["blue"], and two toggles give ["light"] and then
    ["dark"], not the theme they started from. *)
Lemma C7_double_toggle_from_stored_string :
  exists w w1 w2,
    mount (page_load (<["theme" := "blue"]> ∅) false) = Some w
    /\ initialized w
    /\ toggleTheme w = Some w1
    /\ toggleTheme w1 = Some w2
    /\ theme (hooks w) = "blue"
    /\ theme (hooks w1) = "light"
    /\ theme (hooks w2) = "dark"
    /\ theme (hooks w2) <> theme (hooks w).
Proof.
  eexists. eexists. eexists.
  split; [reflexivity | ]. split; [reflexivity | ].
  split; [reflexivity | ]. split; [reflexivity | ].
  split; [reflexivity | ]. split; [reflexivity | ].
  split; [reflexivity | ].
  simpl. discriminate.
Qed.

(** C7, amended. In every initialised state two toggles can be made,
    and after each of them the persisted value equals the theme in
    memory.  When the theme is light or dark the two toggles bring it
    back to where it was; when it is any other string (one taken
    unchecked from the slot) the first toggle gives light and the second
    dark. *)
Theorem C7_double_toggle_restores_mode (w : World) :
  initialized w ->
  exists w1 w2,
    toggleTheme w = Some w1
    /\ toggleTheme w1 = Some w2
    /\ persisted w1 = Some (theme (hooks w1))
    /\ persisted w2 = Some (theme (hooks w2))
    /\ (is_mode (theme (hooks w)) -> theme (hooks w2) = theme (hooks w))
    /\ (~ is_mode (theme (hooks w)) ->
        theme (hooks w1) = "light" /\ theme (hooks w2) = "dark").
Proof.
  intros Hi.
  destruct (toggleTheme_total w) as [w1 H1].
  destruct (toggleTheme_total w1) as [w2 H2].
  pose proof (toggleTheme_initialized w w1 Hi H1) as Hi1.
  pose proof (toggleTheme_initialized w1 w2 Hi1 H2) as Hi2.
  destruct (toggleTheme_inv w w1 Hi H1) as [Hh1 Ha1].
  destruct (toggleTheme_inv w1 w2 Hi1 H2) as [Hh2 Ha2].
  apply (apply_theme_mounted _ _ _ Hi1) in Ha1.
  apply (apply_theme_mounted _ _ _ Hi2) in Ha2.
  destruct Ha1 as (_ & Hs1 & _). destruct Ha2 as (_ & Hs2 & _).
  exists w1, w2. split; [exact H1 | ]. split; [exact H2 | ].
  split; [unfold persisted; rewrite Hs1; apply lookup_insert_eq | ].
  split; [unfold persisted; rewrite Hs2; apply lookup_insert_eq | ].
  rewrite Hh2, Hh1. simpl. split.
  - intros Hmode. apply toggle_involutive. exact Hmode.
  - intros Hn. unfold toggle.
    destruct (String.eqb (theme (hooks w)) "light") eqn:E.
    + exfalso. apply Hn. left. apply String.eqb_eq. exact E.
    + split; reflexivity.
Qed.

Lemma C7_witness :
  let w := {| hooks := {| theme := "dark"; mounted := true |};
              browser := page_load ∅ true |} in
  initialized w
  /\ is_mode (theme (hooks w))
  /\ exists w1 w2,
       toggleTheme w = Some w1
       /\ toggleTheme w1 = Some w2
       /\ persisted w1 = Some (theme (hooks w1))
       /\ persisted w2 = Some (theme (hooks w2))
       /\ theme (hooks w2) = theme (hooks w).
Proof.
  intros w.
  assert (Hi : initialized w) by reflexivity.
  assert (Hm : is_mode (theme (hooks w))) by (right; reflexivity).
  split; [exact Hi | ]. split; [exact Hm | ].
  destruct (C7_double_toggle_restores_mode w Hi)
    as (w1 & w2 & H1 & H2 & Hp1 & Hp2 & Hback & _).
  exists w1, w2.
  split; [exact H1 | ]. split; [exact H2 | ].
  split; [exact Hp1 | ]. split; [exact Hp2 | ].
  exact (Hback Hm).
Defined.

Lemma platform_mode_is_mode (b : Browser) : is_mode (platform_mode b).
Proof. unfold platform_mode, is_mode. destruct (prefers_dark b); tauto. Qed.

(** With a slot the provider could have written itself, detection
    settles on one of the two modes. *)
Lemma detected_is_mode (b : Browser) :
  slot_ok (localStorage b !! "theme") ->
  is_mode (theme (fst (detect_initial_theme first_render b))).
Proof.
  intros Hs. rewrite detect_initial_theme_eq. simpl.
  destruct Hs as [-> | [-> | [-> | ->]]]; simpl;
    try apply platform_mode_is_mode.
  - left. reflexivity.
  - right. reflexivity.
Qed.

(** C9, as stated, fails: the stored string is taken as the mode
    without a check, so a slot holding ["blue"] gives the mode ["blue"]. *)
Lemma C9_unchecked_slot_becomes_mode :
  exists w,
    mount (page_load (<["theme" := "blue"]> ∅) false) = Some w
    /\ initialized w
    /\ theme (hooks w) = "blue"
    /\ ~ is_mode (theme (hooks w)).
Proof.
  eexists. split; [reflexivity | ]. split; [reflexivity | ].
  split; [reflexivity | ].
  simpl. intros [H | H]; discriminate H.
Qed.

(** C9, amended. For every platform preference, if the persisted slot
    is absent, empty, ["light"] or ["dark"] when the page loads, then
    initialisation completes and the mode is light or dark in every
    state from then on.  For any slot content the mode is light or dark
    after a toggle; a non-empty stored string is otherwise taken as the
    initial mode as it is. *)
Theorem C9_mode_light_or_dark (stored : gmap string string) (dark : bool) :
  let b := page_load stored dark in
  (slot_ok (stored !! "theme") ->
     (exists w, mount b = Some w)
     /\ forall w, reachable b w -> is_mode (theme (hooks w)))
  /\ (forall w w', reachable b w -> toggleTheme w = Some w' ->
        is_mode (theme (hooks w')))
  /\ (forall v w, stored !! "theme" = Some v -> v <> EmptyString ->
        mount b = Some w -> theme (hooks w) = v).
Proof.
  intros b. split; [ | split ].
  - intros Hs. split.
    + apply mount_total. apply is_mode_valid_token.
      apply detected_is_mode. exact Hs.
    + intros w Hr. induction Hr as [w Hm | w w' Hr IH Ht].
      * apply mount_inv in Hm. destruct Hm as [-> _].
        apply detected_is_mode. exact Hs.
      * destruct (toggleTheme_inv w w' (reachable_initialized b w Hr) Ht)
          as [-> _].
        simpl. apply toggle_is_mode.
  - intros w w' Hr Ht.
    destruct (toggleTheme_inv w w' (reachable_initialized b w Hr) Ht)
      as [-> _].
    simpl. apply toggle_is_mode.
  - intros v w Hs Hv Hm.
    apply mount_inv in Hm. destruct Hm as [-> _].
    rewrite detect_initial_theme_eq. simpl.
    change (localStorage b) with stored. rewrite Hs.
    apply String.eqb_neq in Hv. rewrite Hv. reflexivity.
Qed.

Lemma C9_witness :
  let stored : gmap string string := <["theme" := "light"]> ∅ in
  let b := page_load stored true in
  slot_ok (stored !! "theme")
  /\ (exists w, mount b = Some w)
  /\ (forall w, reachable b w -> is_mode (theme (hooks w))).
Proof.
  intros stored b.
  assert (Hs : slot_ok (stored !! "theme"))
    by (right; right; left; reflexivity).
  split; [exact Hs | ].
  exact (proj1 (C9_mode_light_or_dark stored true) Hs).
Defined.

(** With a slot the provider could have written itself, the theme is
    one of the two modes throughout the session. *)
Lemma reachable_is_mode (b : Browser) (w : World) :
  slot_ok (localStorage b !! "theme") ->
  reachable b w -> is_mode (theme (hooks w)).
Proof.
  intros Hs Hr. induction Hr as [w Hm | w w' Hr IH Ht].
  - apply mount_inv in Hm. destruct Hm as [-> _].
    apply detected_is_mode. exact Hs.
  - destruct (toggleTheme_inv w w' (reachable_initialized b w Hr) Ht)
      as [-> _].
    simpl. apply toggle_is_mode.
Qed.

(** C8, as stated, fails: initialised with the slot holding ["blue"],
    the root carries the class ["blue"] and neither of the two
    markers. *)
Lemma C8_root_without_marker :
  exists w,
    mount (page_load (<["theme" := "blue"]> ∅) false) = Some w
    /\ initialized w
    /\ classList (browser w) = ["blue"]
    /\ (forall m, is_mode m -> m ∉ classList (browser w)).
Proof.
  eexists. split; [reflexivity | ]. split; [reflexivity | ].
  split; [reflexivity | ].
  intros m Hm Hin. simpl in Hin.
  apply list_elem_of_singleton in Hin. subst m.
  destruct Hm as [H | H]; discriminate H.
Qed.

(** C8, amended. As the page arrives the document root carries neither
    mode marker.  In every state after initialisation the root carries
    the class named by the current theme and no mode marker other than
    it: with the theme light or dark, exactly one of the two markers,
    the one of the current mode; with a theme that is another string
    (one taken unchecked from the slot), neither marker.  The theme is
    light or dark in every state whenever the slot was absent, empty,
    ["light"] or ["dark"] as the page loaded, and in any case after a
    toggle. *)
Theorem C8_root_carries_current_mode
  (stored : gmap string string) (dark : bool) (w : World) :
  reachable (page_load stored dark) w ->
  (forall m, is_mode m -> m ∉ classList (page_load stored dark))
  /\ theme (hooks w) ∈ classList (browser w)
  /\ (is_mode (theme (hooks w)) ->
      exists marker,
        is_mode marker
        /\ marker ∈ classList (browser w)
        /\ (forall m, is_mode m -> m ∈ classList (browser w) -> m = marker)
        /\ marker = theme (hooks w))
  /\ (~ is_mode (theme (hooks w)) ->
      forall m, is_mode m -> m ∉ classList (browser w))
  /\ (slot_ok (stored !! "theme") -> is_mode (theme (hooks w)))
  /\ (forall w', toggleTheme w = Some w' -> is_mode (theme (hooks w'))).
Proof.
  intros Hr.
  destruct (reachable_applied _ w Hr) as [b0 Ha].
  apply (apply_theme_mounted _ _ _ (reachable_initialized _ w Hr)) in Ha.
  destruct Ha as (_ & _ & _ & _ & Hin & Honly).
  split.
  { intros m _ Hm. simpl in Hm. apply elem_of_nil in Hm. exact Hm. }
  split; [exact Hin | ].
  split.
  { intros Hmode. exists (theme (hooks w)). repeat split; assumption. }
  split.
  { intros Hn m Hm Hc. apply Hn. rewrite <- (Honly m Hm Hc). exact Hm. }
  split.
  { intros Hs. exact (reachable_is_mode (page_load stored dark) w Hs Hr). }
  intros w' Ht.
  destruct (toggleTheme_inv w w' (reachable_initialized _ w Hr) Ht)
    as [-> _].
  simpl. apply toggle_is_mode.
Qed.

Lemma C8_witness :
  let stored : gmap string string := ∅ in
  let b := page_load stored true in
  let w := {| hooks := {| theme := "dark"; mounted := true |};
              browser := setItem "theme" "dark"
                           (with_classList ["dark"]
                              (snd (getItem "theme" b))) |} in
  reachable b w
  /\ slot_ok (stored !! "theme")
  /\ (forall m, is_mode m -> m ∉ classList b)
  /\ exists marker,
       is_mode marker
       /\ marker ∈ classList (browser w)
       /\ (forall m, is_mode m -> m ∈ classList (browser w) -> m = marker)
       /\ marker = theme (hooks w).
Proof.
  intros stored b w.
  assert (Hr : reachable b w) by (apply reach_mount; reflexivity).
  assert (Hs : slot_ok (stored !! "theme")) by (left; reflexivity).
  destruct (C8_root_carries_current_mode stored true w Hr)
    as (Hbefore & _ & Hone & _ & Hmode & _).
  split; [exact Hr | ]. split; [exact Hs | ]. split; [exact Hbefore | ].
  exact (Hone (Hmode Hs)).
Defined.

End ThemeProperties.

(** * Further properties of the contact form *)
Section ContactPageProperties.
Import JS Contact ContactPage.
Local Open Scope eff_scope.

(** X1. One submission sends exactly one request, whatever its outcome,
    and that request carries the fields as they were when it was sent:
    edits made while it is in flight do not change it, and the handler
    sends nothing more when the response arrives. *)
Theorem X1_one_request_with_the_fields_at_submission
  (during : list (string * string)) (r : Relay) (w : World) :
  outbound (exec (handleSubmit_begin ;> changes during ;>
                  handleSubmit_settle r) w)
  = (outbound w ++ [submission (formData w)])%list.
Proof.
  destruct (exec_seq handleSubmit_begin
              (changes during ;> handleSubmit_settle r) w
              (begin_returns w)) as [-> _].
  destruct (exec_seq (changes during) (handleSubmit_settle r)
              (exec handleSubmit_begin w)
              (changes_returns during _)) as [-> _].
  destruct (settle_cases r (exec (changes during) (exec handleSubmit_begin w)))
    as (_ & -> & _).
  destruct (changes_frame during (exec handleSubmit_begin w)) as (_ & -> & _).
  reflexivity.
Qed.

(** The console after the handler has dealt with a response. *)
Lemma settle_console (r : Relay) (w : World) :
  console (exec (handleSubmit_settle r) w)
  = match r with
    | Rejected => (console w ++ [FormSubmissionError FetchFailed])%list
    | NotJson => (console w ++ [FormSubmissionError BodyNotJson])%list
    | Json JNull => (console w ++ [FormSubmissionError TypeError])%list
    | Json data =>
        match data_success data with
        | Normal v =>
            if ToBoolean v then console w
            else (console w ++ [Web3FormsError data])%list
        | Throw e => (console w ++ [FormSubmissionError e])%list
        end
    end.
Proof.
  unfold exec.
  destruct r as [ | | data ].
  - rewrite (settle_caught Rejected FetchFailed) by tauto. reflexivity.
  - rewrite (settle_caught NotJson BodyNotJson) by tauto. reflexivity.
  - destruct data as [ | b | x | s | items | props ];
      try (rewrite (settle_falsy _ None) by reflexivity; reflexivity).
    + rewrite (settle_caught (Json JNull) TypeError) by tauto. reflexivity.
    + simpl data_success.
      destruct (ToBoolean (own_property "success" props)) eqn:Hv.
      * rewrite (settle_truthy _ (own_property "success" props))
          by (reflexivity || assumption).
        rewrite Hv. reflexivity.
      * rewrite (settle_falsy _ (own_property "success" props))
          by (reflexivity || assumption).
        rewrite Hv. reflexivity.
Qed.

(** X2. A successful submission writes nothing to the console.  A failed
    one writes exactly one entry: the parsed body when the relay
    answered with JSON other than [null], the caught exception when the
    request failed, the body was not JSON, or the body was [null]. *)
Theorem X2_console_entries (r : Relay) (w : World) :
  (accepted r -> console (exec (handleSubmit r) w) = console w)
  /\ (~ accepted r ->
      console (exec (handleSubmit r) w)
      = (console w
         ++ [match r with
             | Rejected => FormSubmissionError FetchFailed
             | NotJson => FormSubmissionError BodyNotJson
             | Json JNull => FormSubmissionError TypeError
             | Json data => Web3FormsError data
             end])%list).
Proof.
  unfold handleSubmit.
  destruct (exec_seq handleSubmit_begin (handleSubmit_settle r) w
              (begin_returns w)) as [-> _].
  rewrite settle_console.
  change (console (exec handleSubmit_begin w)) with (console w).
  split.
  - intros (props & v & -> & Hp & Ht). simpl. rewrite Hp.
    apply ToBoolean_truthy in Ht. rewrite Ht. reflexivity.
  - intros Hn. destruct r as [ | | data ]; try reflexivity.
    destruct data as [ | b | x | s | items | props ]; try reflexivity.
    simpl.
    destruct (own_property "success" props) as [v | ] eqn:Hp;
      [ | reflexivity ].
    destruct (ToBoolean (Some v)) eqn:Hv; [ | reflexivity ].
    exfalso. apply Hn. exists props, v. repeat split; try assumption.
    apply ToBoolean_truthy. exact Hv.
Qed.

Lemma X2_witness :
  let w := exec (handleChange "name" "Ada") initial in
  let bad := Json (JObject [("success", JBool false)]) in
  let good := Json (JObject [("success", JBool true)]) in
  accepted good
  /\ ~ accepted bad
  /\ console (exec (handleSubmit good) w) = []
  /\ console (exec (handleSubmit bad) w)
     = [Web3FormsError (JObject [("success", JBool false)])].
Proof.
  intros w bad good.
  assert (Hg : accepted good).
  { exists [("success", JBool true)], (JBool true). repeat split. }
  assert (Hb : ~ accepted bad).
  { intros (props & v & Hr & Hp & Ht). injection Hr as <-.
    injection Hp as <-. discriminate Ht. }
  split; [exact Hg | ]. split; [exact Hb | ].
  split.
  - exact (proj1 (X2_console_entries good w) Hg).
  - exact (proj2 (X2_console_entries bad w) Hb).
Defined.

(** X3. Submitting again after a failure sends the same payload a second
    time, since the failure left the fields alone, and the second
    attempt succeeds when the relay accepts it: no failure is final. *)
Theorem X3_retry_after_failure (r1 r2 : Relay) (w : World) :
  ~ accepted r1 ->
  let w1 := exec (handleSubmit r1) w in
  let w2 := exec (handleSubmit r2) w1 in
  status w1 = error
  /\ outbound w2
     = (outbound w ++ [submission (formData w); submission (formData w)])%list
  /\ (accepted r2 -> status w2 = success /\ formData w2 = emptyForm).
Proof.
  intros Hn w1 w2. subst w1 w2.
  destruct (handleSubmit_cases r1 w)
    as (_ & Ho1 & [(Ha & _) | (_ & Hs1 & Hf1)]); [contradiction | ].
  destruct (handleSubmit_cases r2 (exec (handleSubmit r1) w))
    as (_ & Ho2 & Hcases).
  split; [exact Hs1 | ]. split.
  - rewrite Ho2, Ho1, Hf1, <- app_assoc. reflexivity.
  - intros Ha. destruct Hcases as [(_ & Hs & Hf) | (Hn2 & _)];
      [split; assumption | contradiction].
Qed.

Lemma X3_witness :
  let w := exec (handleChange "message" "Hello") initial in
  let w1 := exec (handleSubmit Rejected) w in
  let w2 := exec (handleSubmit (Json (JObject [("success", JBool true)]))) w1 in
  ~ accepted Rejected
  /\ status w1 = error
  /\ outbound w2 = [submission (formData w); submission (formData w)]
  /\ status w2 = success.
Proof.
  intros w w1 w2. subst w1 w2.
  assert (Hn : ~ accepted Rejected).
  { intros (props & v & Hr & _). discriminate Hr. }
  destruct (X3_retry_after_failure Rejected
              (Json (JObject [("success", JBool true)])) w Hn)
    as (Hs & Ho & Hok).
  split; [exact Hn | ]. split; [exact Hs | ]. split; [exact Ho | ].
  apply Hok. exists [("success", JBool true)], (JBool true). repeat split.
Defined.

(** X4. Two changes of the same field leave the later value; changes of
    different fields give the same state in either order. *)
Theorem X4_changes_compose (k1 k2 v1 v2 : string) (w : World) :
  exec (handleChange k1 v2) (exec (handleChange k1 v1) w)
  = exec (handleChange k1 v2) w
  /\ (k1 <> k2 ->
      exec (handleChange k2 v2) (exec (handleChange k1 v1) w)
      = exec (handleChange k1 v1) (exec (handleChange k2 v2) w)).
Proof.
  unfold exec, handleChange, setFormData. simpl. split.
  - rewrite insert_insert_eq. reflexivity.
  - intros Hk. rewrite (insert_insert_ne _ k2 k1) by congruence. reflexivity.
Qed.

Lemma X4_witness :
  exec (handleChange "email" "a@b.c") (exec (handleChange "name" "Ada") initial)
  = exec (handleChange "name" "Ada") (exec (handleChange "email" "a@b.c") initial).
Proof.
  apply (proj2 (X4_changes_compose "name" "email" "Ada" "a@b.c" initial)).
  discriminate.
Defined.

(** *** The page over a run of events *)

(** Either a request is in flight and the status says so, or none is. *)
Lemma step_flight (p : Page) (e : Event) :
  status (world p) = submitting
  /\ length (outbound (world p)) = S (settled p)
  \/ status (world p) <> submitting
  /\ length (outbound (world p)) = settled p ->
  status (world (step p e)) = submitting
  /\ length (outbound (world (step p e))) = S (settled (step p e))
  \/ status (world (step p e)) <> submitting
  /\ length (outbound (world (step p e))) = settled (step p e).
Proof.
  intros Hinv. destruct e as [k v | valid | r].
  - exact Hinv.
  - simpl. unfold exec, submit_button, submit_disabled.
    destruct Hinv as [[Hs Hl] | [Hs Hl]].
    + rewrite Hs. simpl. left. split; assumption.
    + destruct (status (world p)) eqn:Hst; try congruence;
        (destruct valid; simpl;
         [ left; split; [reflexivity | rewrite length_app; simpl; lia]
         | right; split; [congruence | exact Hl] ]).
  - unfold step. destruct (in_flight p) as [ | n] eqn:Hf; [exact Hinv | ].
    unfold in_flight in Hf. simpl.
    destruct (settle_cases r (world p)) as (_ & Ho & Hcases).
    right. split.
    + destruct Hcases as [(_ & Hs & _) | (_ & Hs & _)]; rewrite Hs;
        discriminate.
    + rewrite Ho. destruct Hinv as [[_ Hl] | [_ Hl]]; lia.
Qed.

Lemma run_flight (events : list Event) (p : Page) :
  status (world p) = submitting
  /\ length (outbound (world p)) = S (settled p)
  \/ status (world p) <> submitting
  /\ length (outbound (world p)) = settled p ->
  status (world (run events p)) = submitting
  /\ length (outbound (world (run events p))) = S (settled (run events p))
  \/ status (world (run events p)) <> submitting
  /\ length (outbound (world (run events p))) = settled (run events p).
Proof.
  revert p. induction events as [ | e rest IH ]; intros p Hinv.
  - exact Hinv.
  - simpl. apply IH. apply step_flight. exact Hinv.
Qed.

(** X5. However the page is used (typing, clicks on the submit button,
    responses arriving), at most one request is in flight at any time,
    and one is in flight exactly while the status is [submitting]; the
    button is disabled and reads "Sending..." exactly then, and a
    success or error message is shown only when no request is in
    flight, never both. *)
Theorem X5_one_request_in_flight (events : list Event) :
  let p := run events opened in
  in_flight p <= 1
  /\ (in_flight p = 1 <-> status (world p) = submitting)
  /\ (in_flight p = 1 <-> button_disabled (render (world p)) = true)
  /\ (in_flight p = 1 <-> button_label (render (world p)) = "Sending...")
  /\ (success_message (render (world p)) = true -> in_flight p = 0)
  /\ (error_message (render (world p)) = true -> in_flight p = 0)
  /\ success_message (render (world p)) && error_message (render (world p))
     = false.
Proof.
  intros p. subst p.
  assert (Hinv := run_flight events opened).
  destruct Hinv as [[Hs Hl] | [Hs Hl]].
  { right. split; [discriminate | reflexivity]. }
  - unfold in_flight, render, submit_disabled. simpl. rewrite Hs, Hl. simpl.
    replace (S (settled (run events opened)) - settled (run events opened))
      with 1 by lia.
    repeat split; try tauto; try discriminate; try lia.
  - unfold in_flight, render, submit_disabled. simpl. rewrite Hl.
    replace (settled (run events opened) - settled (run events opened))
      with 0 by lia.
    destruct (status (world (run events opened))); try congruence; simpl;
      repeat split; try tauto; try discriminate; try lia.
Qed.

Lemma X5_witness :
  let busy := run [Change "name" "Ada"; Click true; Click true] opened in
  let done := run [Change "name" "Ada"; Click true; Click true;
                   Respond Rejected] opened in
  in_flight busy = 1
  /\ status (world busy) = submitting
  /\ length (outbound (world busy)) = 1
  /\ in_flight done = 0
  /\ error_message (render (world done)) = true.
Proof.
  intros busy done.
  destruct (X5_one_request_in_flight
              [Change "name" "Ada"; Click true; Click true])
    as (_ & Hiff & _).
  assert (Hs : status (world busy) = submitting) by reflexivity.
  split; [exact (proj2 Hiff Hs) | ].
  split; [exact Hs | ].
  split; [reflexivity | ].
  assert (He : error_message (render (world done)) = true) by reflexivity.
  split; [ | exact He ].
  destruct (X5_one_request_in_flight
              [Change "name" "Ada"; Click true; Click true; Respond Rejected])
    as (_ & _ & _ & _ & _ & Herr & _).
  exact (Herr He).
Defined.

(** X6. While a request is in flight, nothing the user does ends the
    [submitting] state or sends anything: edits and clicks leave the
    status, the requests sent and the count of responses as they are.
    Only a response moves the form on; there is no timeout and no way to
    cancel. *)
Theorem X6_only_a_response_ends_submitting (events : list Event) (p : Page) :
  status (world p) = submitting ->
  forallb (fun e => negb (is_Respond e)) events = true ->
  status (world (run events p)) = submitting
  /\ outbound (world (run events p)) = outbound (world p)
  /\ console (world (run events p)) = console (world p)
  /\ settled (run events p) = settled p.
Proof.
  revert p. induction events as [ | e rest IH ]; intros p Hs Hn.
  - repeat split; assumption.
  - simpl in Hn. apply andb_prop in Hn. destruct Hn as [He Hrest].
    assert (Hstep : status (world (step p e)) = submitting
                    /\ outbound (world (step p e)) = outbound (world p)
                    /\ console (world (step p e)) = console (world p)
                    /\ settled (step p e) = settled p).
    { destruct e as [k v | valid | r]; simpl in He.
      - repeat split. exact Hs.
      - simpl. unfold exec, submit_button, submit_disabled. rewrite Hs.
        simpl. repeat split. exact Hs.
      - discriminate He. }
    destruct Hstep as (Hs' & Ho' & Hc' & Hd').
    simpl. destruct (IH (step p e) Hs' Hrest) as (H1 & H2 & H3 & H4).
    rewrite H2, H3, H4. repeat split; assumption.
Qed.

Lemma X6_witness :
  let p := run [Change "name" "Ada"; Click true] opened in
  let events := [Click true; Change "name" "Bob"; Click false; Click true] in
  status (world p) = submitting
  /\ status (world (run events p)) = submitting
  /\ outbound (world (run events p)) = outbound (world p).
Proof.
  intros p events.
  assert (Hs : status (world p) = submitting) by reflexivity.
  destruct (X6_only_a_response_ends_submitting events p Hs eq_refl)
    as (H1 & H2 & _).
  split; [exact Hs | ]. split; assumption.
Defined.

(** The three fields stay defined, and what was sent was well formed. *)
Lemma step_fields (p : Page) (e : Event) :
  (is_Some (formData (world p) !! "name")
   /\ is_Some (formData (world p) !! "email")
   /\ is_Some (formData (world p) !! "message"))
  /\ Forall well_formed (outbound (world p)) ->
  (is_Some (formData (world (step p e)) !! "name")
   /\ is_Some (formData (world (step p e)) !! "email")
   /\ is_Some (formData (world (step p e)) !! "message"))
  /\ Forall well_formed (outbound (world (step p e))).
Proof.
  intros [(Hn & He & Hm) Hw]. destruct e as [k v | valid | r].
  - simpl. split; [ | exact Hw ].
    repeat split; apply lookup_insert_is_Some'; right; assumption.
  - simpl. unfold exec, submit_button.
    destruct (submit_disabled (world p)); simpl;
      [split; [repeat split; assumption | exact Hw] | ].
    destruct valid; simpl;
      [ | split; [repeat split; assumption | exact Hw] ].
    split; [repeat split; assumption | ].
    apply Forall_app. split; [exact Hw | ].
    apply Forall_singleton.
    destruct Hn as [n Hn], He as [e He], Hm as [m Hm].
    exists n, e, m. unfold submission. simpl. rewrite Hn, He, Hm.
    repeat split.
  - unfold step. destruct (in_flight p);
      [split; [repeat split; assumption | exact Hw] | ].
    simpl. destruct (settle_cases r (world p)) as (_ & Ho & Hcases).
    rewrite Ho. split; [ | exact Hw ].
    destruct Hcases as [(_ & _ & Hf) | (_ & _ & Hf)]; rewrite Hf.
    + repeat split; eexists; reflexivity.
    + repeat split; assumption.
Qed.

Lemma run_fields (events : list Event) (p : Page) :
  (is_Some (formData (world p) !! "name")
   /\ is_Some (formData (world p) !! "email")
   /\ is_Some (formData (world p) !! "message"))
  /\ Forall well_formed (outbound (world p)) ->
  (is_Some (formData (world (run events p)) !! "name")
   /\ is_Some (formData (world (run events p)) !! "email")
   /\ is_Some (formData (world (run events p)) !! "message"))
  /\ Forall well_formed (outbound (world (run events p))).
Proof.
  revert p. induction events as [ | e rest IH ]; intros p Hinv.
  - exact Hinv.
  - simpl. apply IH. apply step_fields. exact Hinv.
Qed.

Lemma opened_fields :
  (is_Some (formData (world opened) !! "name")
   /\ is_Some (formData (world opened) !! "email")
   /\ is_Some (formData (world opened) !! "message"))
  /\ Forall well_formed (outbound (world opened)).
Proof.
  split; [repeat split; eexists; reflexivity | apply Forall_nil; exact I].
Qed.

(** X7. However the page is used, every request it has sent carries the
    three fields as strings (none is missing), a subject line made from
    the name, the name as sender name, and [botcheck: false]; this
    holds for events on inputs of any name. *)
Theorem X7_requests_well_formed (events : list Event) :
  Forall well_formed (outbound (world (run events opened))).
Proof. exact (proj2 (run_fields events opened opened_fields)). Qed.

(** X8. The three inputs stay controlled: however the page is used, each
    of them is given a string as its value, never [undefined]; typing in
    one shows what was typed there and leaves the other two, and right
    after a successful submission all three are empty. *)
Theorem X8_inputs_stay_controlled (events : list Event) :
  let p := run events opened in
  (is_Some (name_value (render (world p)))
   /\ is_Some (email_value (render (world p)))
   /\ is_Some (message_value (render (world p))))
  /\ (forall v,
        let q := step p (Change "name" v) in
        name_value (render (world q)) = Some v
        /\ email_value (render (world q)) = email_value (render (world p))
        /\ message_value (render (world q))
           = message_value (render (world p)))
  /\ (forall r,
        accepted r -> in_flight p = 1 ->
        let q := step p (Respond r) in
        name_value (render (world q)) = Some EmptyString
        /\ email_value (render (world q)) = Some EmptyString
        /\ message_value (render (world q)) = Some EmptyString).
Proof.
  intros p. subst p. split; [ | split ].
  - exact (proj1 (run_fields events opened opened_fields)).
  - intros v q. subst q. simpl. split; [apply lookup_insert_eq | ].
    split; apply lookup_insert_ne; discriminate.
  - intros r Ha Hf q. subst q. unfold step. rewrite Hf. simpl.
    destruct (settle_cases r (world (run events opened)))
      as (_ & _ & [(_ & _ & Hd) | (Hn & _)]); [ | contradiction ].
    rewrite Hd. repeat split.
Qed.

Lemma X8_witness :
  let p := run [Change "name" "Ada"; Change "email" "ada@example.com";
                Click true] opened in
  let r := Json (JObject [("success", JBool true)]) in
  accepted r
  /\ in_flight p = 1
  /\ name_value (render (world p)) = Some "Ada"
  /\ name_value (render (world (step p (Respond r)))) = Some EmptyString.
Proof.
  intros p r.
  assert (Ha : accepted r).
  { exists [("success", JBool true)], (JBool true). repeat split. }
  assert (Hf : in_flight p = 1) by reflexivity.
  split; [exact Ha | ]. split; [exact Hf | ]. split; [reflexivity | ].
  destruct (X8_inputs_stay_controlled
              [Change "name" "Ada"; Change "email" "ada@example.com";
               Click true])
    as (_ & _ & Hreset).
  exact (proj1 (Hreset r Ha Hf)).
Defined.

(** A click on the enabled button of a valid form runs the handler. *)
Lemma click_sends (w : World) :
  status w <> submitting ->
  exec (submit_button true) w = exec handleSubmit_begin w.
Proof.
  intros Hs. unfold exec, submit_button, submit_disabled.
  destruct (status w); congruence || reflexivity.
Qed.

(** X17. With the button enabled, what the user typed last into the
    three inputs is what the next click sends: the request carries those
    three strings, the subject line "kelvinma.com Inquiry from" followed
    by the name, the name as sender name, [botcheck: false] and the
    access key, whatever the fields held before; and the form is then
    [submitting]. *)
Theorem X17_typed_values_are_sent (p : Page) (n e m : string) :
  status (world p) <> submitting ->
  let q := run [Change "name" n; Change "email" e; Change "message" m;
                Click true] p in
  outbound (world q)
  = (outbound (world p)
     ++ [{| access_key := "5fe16617-2e0a-4a55-8ec4-d6bcb699c086";
            name := Some n;
            email := Some e;
            message := Some m;
            subject := "kelvinma.com Inquiry from " ++ n;
            from_name := Some n;
            botcheck := false |}])%list
  /\ status (world q) = submitting.
Proof.
  intros Hs q. subst q. simpl.
  rewrite click_sends by exact Hs.
  unfold exec. simpl. split; [ | reflexivity ].
  f_equal. f_equal. unfold submission.
  rewrite lookup_insert_eq.
  rewrite (lookup_insert_ne _ "message" "email") by discriminate.
  rewrite lookup_insert_eq.
  rewrite (lookup_insert_ne _ "message" "name") by discriminate.
  rewrite (lookup_insert_ne _ "email" "name") by discriminate.
  rewrite lookup_insert_eq. reflexivity.
Qed.

Lemma X17_witness :
  let p := run [Change "name" "Bob"; Click true; Respond NotJson] opened in
  let q := run [Change "name" "Ada"; Change "email" "ada@example.com";
                Change "message" "Hello"; Click true] p in
  status (world p) <> submitting
  /\ length (outbound (world q)) = 2
  /\ status (world q) = submitting.
Proof.
  intros p q. subst q.
  assert (Hs : status (world p) <> submitting) by discriminate.
  destruct (X17_typed_values_are_sent p "Ada" "ada@example.com" "Hello" Hs)
    as [Ho Hst].
  split; [exact Hs | ]. split; [ | exact Hst ].
  rewrite Ho, length_app. reflexivity.
Defined.

End ContactPageProperties.

(** * Further properties of the theme provider *)
Section ThemeSessionProperties.
Import ThemeProvider ThemeSession.

Lemma valid_token_nonempty (v : string) :
  valid_token v = true -> String.eqb v EmptyString = false.
Proof.
  unfold valid_token. intros H. apply andb_prop in H. destruct H as [H _].
  apply negb_true_iff in H. exact H.
Qed.

(** The second effect leaves every class that is not a mode marker. *)
Lemma apply_theme_keeps (h : Hooks) (b b' : Browser) (c : string) :
  apply_theme h b = Some b' ->
  c ∈ classList b -> ~ is_mode c -> c ∈ classList b'.
Proof.
  unfold apply_theme, classList_remove, classList_add.
  destruct (negb (mounted h)); [intros H; injection H as <-; tauto | ].
  simpl. destruct (valid_token (theme h)); simpl; [ | discriminate ].
  intros H Hin Hmode. injection H as <-. simpl.
  assert (Hkept : c ∈ filter (fun c => c ∉@{list string} ["light"; "dark"])
                            (classList b)).
  { apply list_elem_of_filter. split; [ | exact Hin ].
    intros Hc. apply Hmode. unfold is_mode.
    apply elem_of_cons in Hc. destruct Hc as [-> | Hc]; [tauto | ].
    apply elem_of_cons in Hc. destruct Hc as [-> | Hc]; [tauto | ].
    apply elem_of_nil in Hc. contradiction. }
  case_bool_decide; [exact Hkept | ].
  apply elem_of_app. left. exact Hkept.
Qed.

(** In every state of a session: the provider is mounted, the theme is
    a valid class token, and the browser is what the second effect made
    of some earlier browser whose storage differs from the first one at
    most in the [theme] slot. *)
Lemma reachable_browser (b : Browser) (w : World) :
  reachable b w ->
  valid_token (theme (hooks w)) = true
  /\ persisted w = Some (theme (hooks w))
  /\ prefers_dark (browser w) = prefers_dark b
  /\ (forall k, k <> "theme" ->
        localStorage (browser w) !! k = localStorage b !! k)
  /\ (forall c, c ∈ classList b -> ~ is_mode c -> c ∈ classList (browser w)).
Proof.
  induction 1 as [w Hm | w w' Hr IH Ht].
  - pose proof (mount_initialized b w Hm) as Hi.
    apply mount_inv in Hm. destruct Hm as [_ Ha].
    pose proof (apply_theme_mounted _ _ _ Hi Ha)
      as (Hv & Hs & _ & Hp & _).
    split; [exact Hv | ].
    split; [unfold persisted; rewrite Hs; apply lookup_insert_eq | ].
    split; [exact Hp | ].
    split.
    + intros k Hk. rewrite Hs. apply lookup_insert_ne. congruence.
    + intros c Hin Hmode. exact (apply_theme_keeps _ _ _ c Ha Hin Hmode).
  - pose proof (reachable_initialized b w Hr) as Hi.
    pose proof (toggleTheme_initialized w w' Hi Ht) as Hi'.
    destruct (toggleTheme_inv w w' Hi Ht) as [_ Ha].
    pose proof (apply_theme_mounted _ _ _ Hi' Ha)
      as (Hv & Hs & _ & Hp & _).
    destruct IH as (_ & _ & IHp & IHk & IHc).
    split; [exact Hv | ].
    split; [unfold persisted; rewrite Hs; apply lookup_insert_eq | ].
    split; [rewrite Hp; exact IHp | ].
    split.
    + intros k Hk. rewrite Hs, lookup_insert_ne by congruence.
      apply IHk. exact Hk.
    + intros c Hin Hmode.
      exact (apply_theme_keeps _ _ _ c Ha (IHc c Hin Hmode) Hmode).
Qed.

(** X9. In every state of a session, right after initialisation as much
    as after any toggle, the persisted value equals the theme in memory;
    this holds whatever the slot held at first, also a string that is no
    mode. *)
Theorem X9_persisted_equals_theme (b : Browser) (w : World) :
  reachable b w -> persisted w = Some (theme (hooks w)).
Proof. intros Hr. exact (proj1 (proj2 (reachable_browser b w Hr))). Qed.

Lemma X9_witness :
  let b := page_load (<["theme" := "blue"]> ∅) true in
  let w := {| hooks := {| theme := "blue"; mounted := true |};
              browser := setItem "theme" "blue"
                           (with_classList ["blue"]
                              (snd (getItem "theme" b))) |} in
  reachable b w /\ persisted w = Some "blue".
Proof.
  intros b w.
  assert (Hr : reachable b w) by (apply reach_mount; reflexivity).
  split; [exact Hr | ].
  exact (X9_persisted_equals_theme b w Hr).
Defined.

(** X10. The theme survives a reload: loading the page again with the
    storage a session left behind initialises to the theme that session
    ended with, whatever the platform prefers by then. *)
Theorem X10_theme_survives_reload (b : Browser) (w : World) (dark : bool) :
  reachable b w ->
  exists w', mount (reload w dark) = Some w'
             /\ theme (hooks w') = theme (hooks w).
Proof.
  intros Hr.
  destruct (reachable_browser b w Hr) as (Hv & Hp & _).
  assert (Ht : theme (fst (detect_initial_theme first_render (reload w dark)))
               = theme (hooks w)).
  { rewrite detect_initial_theme_eq. simpl.
    unfold persisted in Hp. rewrite Hp.
    rewrite (valid_token_nonempty _ Hv). reflexivity. }
  destruct (mount_total (reload w dark)) as [w' Hw'].
  { rewrite Ht. exact Hv. }
  exists w'. split; [exact Hw' | ].
  apply mount_inv in Hw'. destruct Hw' as [-> _]. exact Ht.
Qed.

Lemma X10_witness :
  let b := page_load ∅ true in
  let w := {| hooks := {| theme := "dark"; mounted := true |};
              browser := setItem "theme" "dark"
                           (with_classList ["dark"]
                              (snd (getItem "theme" b))) |} in
  reachable b w
  /\ exists w', mount (reload w false) = Some w'
                /\ theme (hooks w') = "dark".
Proof.
  intros b w.
  assert (Hr : reachable b w) by (apply reach_mount; reflexivity).
  split; [exact Hr | ].
  exact (X10_theme_survives_reload b w false Hr).
Defined.

Lemma reachable_calls (b : Browser) (w : World) :
  reachable b w ->
  exists calls,
    storage_calls (browser w) = (storage_calls b ++ calls)%list
    /\ Forall (fun c => call_key c = "theme") calls.
Proof.
  induction 1 as [w Hm | w w' Hr IH Ht].
  - eexists. split; [exact (mount_calls b w Hm) | ].
    repeat constructor.
  - destruct IH as (calls & Hc & Hall).
    exists (calls ++ [SetItem "theme" (theme (hooks w'))])%list. split.
    + rewrite (toggleTheme_calls w w' (reachable_initialized b w Hr) Ht), Hc.
      rewrite <- app_assoc. reflexivity.
    + apply Forall_app. split; [exact Hall | ]. repeat constructor.
Qed.

(** X11. The provider uses storage for its own key only: in every state
    of a session each call it made on [localStorage] was on the key
    [theme], every other key holds what it held when the page loaded,
    and the media query result is as it was. *)
Theorem X11_only_the_theme_key (b : Browser) (w : World) :
  reachable b w ->
  (forall k, k <> "theme" ->
     localStorage (browser w) !! k = localStorage b !! k)
  /\ (exists calls,
        storage_calls (browser w) = (storage_calls b ++ calls)%list
        /\ Forall (fun c => call_key c = "theme") calls)
  /\ prefers_dark (browser w) = prefers_dark b.
Proof.
  intros Hr.
  destruct (reachable_browser b w Hr) as (_ & _ & Hp & Hk & _).
  split; [exact Hk | ]. split; [exact (reachable_calls b w Hr) | exact Hp].
Qed.

Lemma X11_witness :
  let b := page_load (<["cart" := "3"]> ∅) false in
  let w := {| hooks := {| theme := "light"; mounted := true |};
              browser := setItem "theme" "light"
                           (with_classList ["light"]
                              (snd (getItem "theme" b))) |} in
  reachable b w
  /\ localStorage (browser w) !! "cart" = Some "3".
Proof.
  intros b w.
  assert (Hr : reachable b w) by (apply reach_mount; reflexivity).
  split; [exact Hr | ].
  destruct (X11_only_the_theme_key b w Hr) as (Hk & _).
  rewrite (Hk "cart"); [reflexivity | discriminate].
Defined.

(** X12. The provider never removes a class of the document root other
    than the two mode markers: a class that is on the root when the
    session starts is still there in every later state. *)
Theorem X12_other_classes_stay (b : Browser) (w : World) (c : string) :
  reachable b w ->
  c ∈ classList b -> ~ is_mode c ->
  c ∈ classList (browser w).
Proof.
  intros Hr Hin Hmode.
  destruct (reachable_browser b w Hr) as (_ & _ & _ & _ & Hc).
  exact (Hc c Hin Hmode).
Qed.

Lemma X12_witness :
  let b := with_classList ["fonts-ready"] (page_load ∅ true) in
  let w := {| hooks := {| theme := "dark"; mounted := true |};
              browser := setItem "theme" "dark"
                           (with_classList ["fonts-ready"; "dark"]
                              (snd (getItem "theme" b))) |} in
  reachable b w
  /\ "fonts-ready" ∈ classList b
  /\ ~ is_mode "fonts-ready"
  /\ "fonts-ready" ∈ classList (browser w).
Proof.
  intros b w.
  assert (Hr : reachable b w) by (apply reach_mount; reflexivity).
  assert (Hin : "fonts-ready" ∈ classList b)
    by (apply list_elem_of_singleton; reflexivity).
  assert (Hm : ~ is_mode "fonts-ready") by (intros [H | H]; discriminate H).
  split; [exact Hr | ]. split; [exact Hin | ]. split; [exact Hm | ].
  exact (X12_other_classes_stay b w "fonts-ready" Hr Hin Hm).
Defined.

Lemma toggles_theme (n : nat) (w : World) :
  exists w', toggles n w = Some w'
             /\ theme (hooks w') = Nat.iter n toggle (theme (hooks w))
             /\ mounted (hooks w') = mounted (hooks w).
Proof.
  revert w. induction n as [ | n IH ]; intros w.
  - exists w. repeat split.
  - destruct (toggleTheme_total w) as [w1 H1].
    destruct (IH w1) as (w' & Hw' & Ht & Hm).
    exists w'. simpl toggles. rewrite H1. simpl. split; [exact Hw' | ].
    assert (Hh : hooks w1 = setTheme (toggle (theme (hooks w))) (hooks w)).
    { unfold toggleTheme in H1.
      destruct (rerender _ _ _); simpl in H1; [ | discriminate ].
      injection H1 as <-. reflexivity. }
    rewrite Ht, Hm, Hh. simpl. split; [ | reflexivity ].
    clear. induction n as [ | n IHn ]; [reflexivity | ].
    simpl. rewrite IHn. reflexivity.
Qed.

Lemma iter_toggle_mode (n : nat) (v : string) :
  is_mode v ->
  Nat.iter n toggle v = if Nat.even n then v else toggle v.
Proof.
  intros Hv. induction n as [ | n IH ]; [reflexivity | ].
  simpl Nat.iter. rewrite IH.
  rewrite Nat.even_succ, <- Nat.negb_even.
  destruct (Nat.even n); simpl; [reflexivity | ].
  apply toggle_involutive. exact Hv.
Qed.

(** X13. With the mode light or dark, any number of toggles can be made,
    and only the parity of that number counts: an even number leaves the
    mode, an odd number gives the other mode. *)
Theorem X13_toggles_by_parity (n : nat) (w : World) :
  is_mode (theme (hooks w)) ->
  exists w', toggles n w = Some w'
             /\ theme (hooks w')
                = if Nat.even n then theme (hooks w)
                  else toggle (theme (hooks w)).
Proof.
  intros Hmode. destruct (toggles_theme n w) as (w' & Hw' & Ht & _).
  exists w'. split; [exact Hw' | ].
  rewrite Ht. apply iter_toggle_mode. exact Hmode.
Qed.

Lemma X13_witness :
  let w := {| hooks := {| theme := "dark"; mounted := true |};
              browser := page_load ∅ true |} in
  is_mode (theme (hooks w))
  /\ exists w', toggles 5 w = Some w' /\ theme (hooks w') = "light".
Proof.
  intros w.
  assert (Hm : is_mode (theme (hooks w))) by (right; reflexivity).
  split; [exact Hm | ].
  exact (X13_toggles_by_parity 5 w Hm).
Defined.

(** X14. Initialisation fails, with [classList.add] throwing inside the
    effect, exactly when the slot holds a non-empty string that is no
    valid class token, that is, one containing white space.  In every
    other case it completes. *)
Theorem X14_initialisation_fails_iff (b : Browser) :
  mount b = None
  <-> exists v, localStorage b !! "theme" = Some v
                /\ v <> EmptyString
                /\ valid_token v = false.
Proof.
  split.
  - intros Hnone.
    destruct (valid_token
                (theme (fst (detect_initial_theme first_render b)))) eqn:Hv.
    { destruct (mount_total b Hv) as [w Hw]. congruence. }
    rewrite detect_initial_theme_eq in Hv. simpl in Hv.
    destruct (localStorage b !! "theme") as [v | ] eqn:Hs.
    + destruct (String.eqb v EmptyString) eqn:He.
      * rewrite (is_mode_valid_token _ (platform_mode_is_mode b)) in Hv.
        discriminate Hv.
      * exists v. split; [reflexivity | ].
        split; [apply String.eqb_neq; exact He | exact Hv].
    + rewrite (is_mode_valid_token _ (platform_mode_is_mode b)) in Hv.
      discriminate Hv.
  - intros (v & Hs & Hne & Hv).
    destruct (mount b) as [w | ] eqn:Hm; [ | reflexivity ].
    exfalso.
    pose proof (mount_initialized b w Hm) as Hi.
    apply mount_inv in Hm. destruct Hm as [Hh Ha].
    apply (apply_theme_mounted _ _ _ Hi) in Ha. destruct Ha as (Hvalid & _).
    rewrite Hh, detect_initial_theme_eq in Hvalid. simpl in Hvalid.
    rewrite Hs in Hvalid. apply String.eqb_neq in Hne.
    rewrite Hne in Hvalid. congruence.
Qed.

(** X18. Whatever the slot held, in every state of a session the root
    carries the class named by the current theme and no mode marker
    other than it.  A stored string that is no mode, once put on the root
    by initialisation, is never taken off again: it stays beside the
    marker of every later mode. *)
Theorem X18_root_follows_theme (b : Browser) (w : World) :
  reachable b w ->
  theme (hooks w) ∈ classList (browser w)
  /\ (forall m, is_mode m -> m ∈ classList (browser w) -> m = theme (hooks w))
  /\ (forall w0, mount b = Some w0 -> ~ is_mode (theme (hooks w0)) ->
        theme (hooks w0) ∈ classList (browser w)).
Proof.
  intros Hr.
  destruct (reachable_applied b w Hr) as [b0 Ha].
  pose proof (apply_theme_mounted _ _ _ (reachable_initialized b w Hr) Ha)
    as (_ & _ & _ & _ & Hin & Honly).
  split; [exact Hin | ]. split; [exact Honly | ].
  clear b0 Ha Hin Honly.
  induction Hr as [w Hm | w w' Hr IH Ht]; intros w0 Hm0 Hmode.
  - rewrite Hm in Hm0. injection Hm0 as <-.
    pose proof (mount_initialized b w Hm) as Hi.
    apply mount_inv in Hm. destruct Hm as [_ Ha].
    apply (apply_theme_mounted _ _ _ Hi) in Ha.
    destruct Ha as (_ & _ & _ & _ & Hin & _). exact Hin.
  - destruct (toggleTheme_inv w w' (reachable_initialized b w Hr) Ht)
      as [_ Ha].
    exact (apply_theme_keeps _ _ _ _ Ha (IH w0 Hm0 Hmode) Hmode).
Qed.

Lemma X18_witness :
  let b := page_load (<["theme" := "blue"]> ∅) false in
  let w0 := {| hooks := {| theme := "blue"; mounted := true |};
               browser := setItem "theme" "blue"
                            (with_classList ["blue"]
                               (snd (getItem "theme" b))) |} in
  let w1 := {| hooks := {| theme := "light"; mounted := true |};
               browser := setItem "theme" "light"
                            (with_classList ["blue"; "light"]
                               (browser w0)) |} in
  reachable b w1
  /\ mount b = Some w0
  /\ ~ is_mode (theme (hooks w0))
  /\ "light" ∈ classList (browser w1)
  /\ "blue" ∈ classList (browser w1).
Proof.
  intros b w0 w1.
  assert (Hm : mount b = Some w0) by reflexivity.
  assert (Hr : reachable b w1).
  { apply (reach_toggle b w0 w1); [apply reach_mount; exact Hm | reflexivity]. }
  assert (Hn : ~ is_mode (theme (hooks w0)))
    by (intros [H | H]; discriminate H).
  destruct (X18_root_follows_theme b w1 Hr) as (Hin & _ & Hstale).
  split; [exact Hr | ]. split; [exact Hm | ]. split; [exact Hn | ].
  split; [exact Hin | exact (Hstale w0 Hm Hn)].
Defined.

End ThemeSessionProperties.

(** * Properties of the navigation bar and of the project cards *)
Section NavigationProperties.
Import ThemeProvider ThemeSession Navigation.

(** X15. Outside a provider the navigation bar does not render:
    [useTheme] throws.  Inside one it renders, and its theme buttons
    announce the theme a click leads to: the moon icon and the label
    "Dark Mode" are shown exactly when a toggle gives [dark], the sun
    icon and "Light Mode" exactly when it gives [light]; this holds for
    every string the theme may hold.  The mobile label exists only
    while the mobile menu is open. *)
Theorem X15_theme_button_announces_next_theme (w : World) (open : bool) :
  render None open
  = inl (Error "useTheme must be used within a ThemeProvider")
  /\ exists v w',
       render (Some (hooks w)) open = inr v
       /\ toggleTheme w = Some w'
       /\ (desktop_icon v = Moon /\ theme (hooks w') = "dark"
           \/ desktop_icon v = Sun /\ theme (hooks w') = "light")
       /\ mobile_menu v
          = if open
            then Some (if String.eqb (theme (hooks w')) "dark"
                       then "Dark Mode" else "Light Mode")
            else None.
Proof.
  split; [reflexivity | ].
  destruct (toggles_theme 1 w) as (w' & Hw' & Ht & _).
  simpl in Hw'. destruct (toggleTheme w) as [w1 | ] eqn:H1;
    simpl in Hw'; [ | discriminate ].
  injection Hw' as ->. simpl in Ht.
  eexists. exists w'. split; [reflexivity | ]. split; [reflexivity | ].
  rewrite Ht. unfold toggle. simpl.
  destruct (String.eqb (theme (hooks w)) "light"); simpl.
  - split; [left; split; reflexivity | reflexivity].
  - split; [right; split; reflexivity | reflexivity].
Qed.

End NavigationProperties.

Section ProjectsProperties.
Import Projects.

(** X16. A project card never shows an empty row of links: the row is
    rendered exactly when at least one of [link] and [github] is a
    non-empty string, it then holds one or two anchors, "View Project"
    before "GitHub", each pointing to the project's own address; an
    absent or empty address gives no anchor. *)
Theorem X16_links_row_never_empty (p : Project) :
  links p <> Some []
  /\ (links p = None
      <-> truthy (link p) = false /\ truthy (github p) = false)
  /\ links p
     = (if truthy (link p) || truthy (github p)
        then Some ((if truthy (link p)
                    then [{| href := default EmptyString (link p);
                             text := ViewProject |}]
                    else [])
                   ++ (if truthy (github p)
                       then [{| href := default EmptyString (github p);
                                text := GitHub |}]
                       else []))%list
        else None).
Proof.
  unfold links, or_else, anchor_if, truthy.
  destruct (link p) as [l | ], (github p) as [g | ]; simpl.
  all: try (destruct (String.eqb l EmptyString) eqn:El;
            simpl; rewrite ?El; simpl).
  all: try (destruct (String.eqb g EmptyString) eqn:Eg;
            simpl; rewrite ?Eg; simpl).
  all: split; [intros H; discriminate H | ].
  all: split; [ | reflexivity ].
  all: split; [intros H; try discriminate H; split; reflexivity | ].
  all: intros [H1 H2]; try discriminate H1; try discriminate H2;
    reflexivity.
Qed.

End ProjectsProperties.
